(** * Deterministic asset resolution of the Seiko store ([app/core/assets.py])

    A shallow embedding of [SeikoAssetManager]: the keyword tables, the
    three URL-construction methods ([get_seiko_assets], [get_product_image],
    [get_hero_banner]) and the reachability probe ([validate_image_url]),
    together with the pieces of the Python runtime they call:
    [str.encode], [hashlib.md5], [urllib.parse.quote], [int(_, 16)],
    [str.replace], list indexing and [dict] lookup. *)

From Stdlib Require Import ZArith String Ascii DecimalString Bool Lia List.
Import ListNotations.
Open Scope Z_scope.

(** ** Python values and exceptions *)

(** A Python [str] is a sequence of Unicode code points; a lone surrogate
    (U+D800..U+DFFF) is a legal element of a [str]. *)
Definition pystr := list Z.

(** A [bytes] object: every element is meant to lie in [0, 255]. *)
Definition pybytes := list Z.

(** The code points of an ASCII literal of the source. *)
Definition py (s : string) : pystr :=
  map (fun a => Z.of_nat (nat_of_ascii a)) (list_ascii_of_string s).

Inductive exn : Set :=
| UnicodeEncodeError
| KeyError
| IndexError
| ZeroDivisionError
| ValueError
| OSError
| ReadTimeout
| ConnectionError
| KeyboardInterrupt.

Inductive result (A : Type) : Type :=
| Ok (a : A)
| Raise (e : exn).
Arguments Ok {A} a.
Arguments Raise {A} e.

Definition bind {A B : Type} (m : result A) (k : A -> result B) : result B :=
  match m with
  | Ok a => k a
  | Raise e => Raise e
  end.

Notation "x <- m ;; k" := (bind m (fun x => k))
  (at level 61, m at next level, right associativity).
Notation "' p <- m ;; k" := (bind m (fun x => match x with p => k end))
  (at level 61, p pattern, m at next level, right associativity).

(** [for x in xs: ys.append(f x)], stopping at the first exception. *)
Fixpoint mapM {A B : Type} (f : A -> result B) (xs : list A) : result (list B) :=
  match xs with
  | [] => Ok []
  | x :: r => y <- f x ;; ys <- mapM f r ;; Ok (y :: ys)
  end.

(** ** Builtins *)
Module Py.

(** [len(xs)] *)
Definition len {A : Type} (xs : list A) : Z := Z.of_nat (length xs).

(** [range(n)]: empty when [n <= 0]. *)
Definition range (n : Z) : list Z := map Z.of_nat (seq 0 (Z.to_nat n)).

(** [a % b] on integers: the sign follows the divisor, as [Z.modulo] does. *)
Definition mod_ (a b : Z) : result Z :=
  if b =? 0 then Raise ZeroDivisionError else Ok (a mod b).

(** [xs[i]]: a negative index counts from the end. *)
Definition getitem {A : Type} (xs : list A) (i : Z) : result A :=
  let j := if i <? 0 then i + len xs else i in
  if j <? 0 then Raise IndexError
  else match nth_error xs (Z.to_nat j) with
       | Some x => Ok x
       | None => Raise IndexError
       end.

(** A [dict] keeps insertion order: an association list. *)
Definition dict (K V : Type) := list (K * V).

(** [a == b] on strings *)
Fixpoint str_eqb (a b : pystr) : bool :=
  match a, b with
  | [], [] => true
  | x :: a', y :: b' => (x =? y) && str_eqb a' b'
  | _, _ => false
  end.

Fixpoint dict_find {V : Type} (d : dict pystr V) (k : pystr) : option V :=
  match d with
  | [] => None
  | (k', v) :: r => if str_eqb k' k then Some v else dict_find r k
  end.

(** [d[k]] *)
Definition dict_getitem {V : Type} (d : dict pystr V) (k : pystr) : result V :=
  match dict_find d k with
  | Some v => Ok v
  | None => Raise KeyError
  end.

(** [d.get(k, default)] *)
Definition dict_get {V : Type} (d : dict pystr V) (k : pystr) (default : V) : V :=
  match dict_find d k with
  | Some v => v
  | None => default
  end.

(** [str(n)] and [f"{n}"] for an integer. *)
Definition str_of_int (n : Z) : pystr := py (NilZero.string_of_int (Z.to_int n)).

(** [s.replace(old, new)] where [old] and [new] are one character each, the
    only way the source calls it. *)
Definition replace1 (s : pystr) (old new : Z) : pystr :=
  map (fun c => if c =? old then new else c) s.

(** A code point that UTF-8 can carry: in range and not a surrogate. *)
Definition scalar_value (c : Z) : bool :=
  ((0 <=? c) && (c <? 0xD800)) || ((0xE000 <=? c) && (c <=? 0x10FFFF)).

Definition encode_char (c : Z) : result pybytes :=
  if negb (scalar_value c) then Raise UnicodeEncodeError
  else if c <? 0x80 then Ok [c]
  else if c <? 0x800 then
    Ok [Z.lor 0xC0 (Z.shiftr c 6); Z.lor 0x80 (Z.land c 0x3F)]
  else if c <? 0x10000 then
    Ok [Z.lor 0xE0 (Z.shiftr c 12);
        Z.lor 0x80 (Z.land (Z.shiftr c 6) 0x3F);
        Z.lor 0x80 (Z.land c 0x3F)]
  else
    Ok [Z.lor 0xF0 (Z.shiftr c 18);
        Z.lor 0x80 (Z.land (Z.shiftr c 12) 0x3F);
        Z.lor 0x80 (Z.land (Z.shiftr c 6) 0x3F);
        Z.lor 0x80 (Z.land c 0x3F)].

(** [s.encode()]: UTF-8, errors='strict'. *)
Fixpoint encode (s : pystr) : result pybytes :=
  match s with
  | [] => Ok []
  | c :: r => b <- encode_char c ;; bs <- encode r ;; Ok (b ++ bs)
  end.

(** Strings on which [encode] succeeds. *)
Definition encodable (s : pystr) : Prop := Forall (fun c => scalar_value c = true) s.

Definition hex_value (c : Z) : option Z :=
  if (48 <=? c) && (c <=? 57) then Some (c - 48)
  else if (97 <=? c) && (c <=? 102) then Some (c - 87)
  else if (65 <=? c) && (c <=? 70) then Some (c - 55)
  else None.

Fixpoint int16_digits (acc : Z) (s : pystr) : result Z :=
  match s with
  | [] => Ok acc
  | c :: r =>
      match hex_value c with
      | Some v => int16_digits (16 * acc + v) r
      | None => Raise ValueError
      end
  end.

(** [int(s, 16)] on a string of hexadecimal digits (the only form a slice of
    a [hexdigest()] can take); anything else, the empty string included, is a
    [ValueError]. *)
Definition int16 (s : pystr) : result Z :=
  match s with
  | [] => Raise ValueError
  | _ => int16_digits 0 s
  end.

End Py.

(** ** [hashlib.md5] (RFC 1321) *)
Module MD5.

Definition add32 (a b : Z) : Z := (a + b) mod 2 ^ 32.
Definition not32 (x : Z) : Z := Z.lxor x 0xFFFFFFFF.
Definition rotl32 (x c : Z) : Z :=
  Z.lor (Z.shiftl x c mod 2 ^ 32) (Z.shiftr x (32 - c)).

Definition shifts : list Z :=
  [7; 12; 17; 22; 7; 12; 17; 22; 7; 12; 17; 22; 7; 12; 17; 22;
   5; 9; 14; 20; 5; 9; 14; 20; 5; 9; 14; 20; 5; 9; 14; 20;
   4; 11; 16; 23; 4; 11; 16; 23; 4; 11; 16; 23; 4; 11; 16; 23;
   6; 10; 15; 21; 6; 10; 15; 21; 6; 10; 15; 21; 6; 10; 15; 21].

(** [floor(2^32 * abs(sin(i + 1)))] *)
Definition sines : list Z :=
  [0xd76aa478; 0xe8c7b756; 0x242070db; 0xc1bdceee;
   0xf57c0faf; 0x4787c62a; 0xa8304613; 0xfd469501;
   0x698098d8; 0x8b44f7af; 0xffff5bb1; 0x895cd7be;
   0x6b901122; 0xfd987193; 0xa679438e; 0x49b40821;
   0xf61e2562; 0xc040b340; 0x265e5a51; 0xe9b6c7aa;
   0xd62f105d; 0x02441453; 0xd8a1e681; 0xe7d3fbc8;
   0x21e1cde6; 0xc33707d6; 0xf4d50d87; 0x455a14ed;
   0xa9e3e905; 0xfcefa3f8; 0x676f02d9; 0x8d2a4c8a;
   0xfffa3942; 0x8771f681; 0x6d9d6122; 0xfde5380c;
   0xa4beea44; 0x4bdecfa9; 0xf6bb4b60; 0xbebfbc70;
   0x289b7ec6; 0xeaa127fa; 0xd4ef3085; 0x04881d05;
   0xd9d4d039; 0xe6db99e5; 0x1fa27cf8; 0xc4ac5665;
   0xf4292244; 0x432aff97; 0xab9423a7; 0xfc93a039;
   0x655b59c3; 0x8f0ccc92; 0xffeff47d; 0x85845dd1;
   0x6fa87e4f; 0xfe2ce6e0; 0xa3014314; 0x4e0811a1;
   0xf7537e82; 0xbd3af235; 0x2ad7d2bb; 0xeb86d391].

(** Little-endian bytes of a word, and back. *)
Fixpoint le_bytes (n : nat) (x : Z) : pybytes :=
  match n with
  | O => []
  | S n' => x mod 256 :: le_bytes n' (x / 256)
  end.

Fixpoint le_words (bs : pybytes) : list Z :=
  match bs with
  | b0 :: b1 :: b2 :: b3 :: r =>
      (b0 + 256 * (b1 + 256 * (b2 + 256 * b3))) :: le_words r
  | _ => []
  end.

(** Padding: a 1 bit, zeros up to 56 mod 64, the bit length on 64 bits. *)
Definition pad (msg : pybytes) : pybytes :=
  let n := Py.len msg in
  msg ++ [0x80] ++ repeat 0 (Z.to_nat ((55 - n) mod 64))
      ++ le_bytes 8 ((8 * n) mod 2 ^ 64).

Fixpoint blocks (n : nat) (bs : pybytes) : list pybytes :=
  match n with
  | O => []
  | S n' => firstn 64 bs :: blocks n' (skipn 64 bs)
  end.

Definition state : Type := Z * Z * Z * Z.

Definition round (M : list Z) (st : state) (i : nat) : state :=
  let '(A, B, C, D) := st in
  let iz := Z.of_nat i in
  let '(F, g) :=
    if iz <? 16 then (Z.lor (Z.land B C) (Z.land (not32 B) D), iz)
    else if iz <? 32 then (Z.lor (Z.land D B) (Z.land (not32 D) C), (5 * iz + 1) mod 16)
    else if iz <? 48 then (Z.lxor (Z.lxor B C) D, (3 * iz + 5) mod 16)
    else (Z.lxor C (Z.lor B (not32 D)), (7 * iz) mod 16) in
  let F' := add32 (add32 (add32 F A) (nth i sines 0)) (nth (Z.to_nat g) M 0) in
  (D, add32 B (rotl32 F' (nth i shifts 0)), B, C).

Definition compress (st : state) (block : pybytes) : state :=
  let '(a0, b0, c0, d0) := st in
  let '(A, B, C, D) := fold_left (round (le_words block)) (seq 0 64) st in
  (add32 a0 A, add32 b0 B, add32 c0 C, add32 d0 D).

Definition init : state := (0x67452301, 0xefcdab89, 0x98badcfe, 0x10325476).

(** [hashlib.md5(msg).digest()] *)
Definition digest (msg : pybytes) : pybytes :=
  let p := pad msg in
  let '(a, b, c, d) := fold_left compress (blocks (Nat.div (length p) 64) p) init in
  le_bytes 4 a ++ le_bytes 4 b ++ le_bytes 4 c ++ le_bytes 4 d.

Definition hex_digit (n : Z) : Z := if n <? 10 then 48 + n else 87 + n.

(** [hashlib.md5(msg).hexdigest()] *)
Definition hexdigest (msg : pybytes) : pystr :=
  flat_map (fun b => [hex_digit (b / 16); hex_digit (b mod 16)]) (digest msg).

End MD5.

(** ** [urllib.parse.quote] *)
Module Urllib.

(** Bytes never escaped: letters, digits, [_.-~] (the tilde since Python
    3.7), and the default [safe='/']. *)
Definition safe_byte (b : Z) : bool :=
  ((65 <=? b) && (b <=? 90)) || ((97 <=? b) && (b <=? 122))
  || ((48 <=? b) && (b <=? 57))
  || (b =? 95) || (b =? 46) || (b =? 45) || (b =? 126) || (b =? 47).

Definition HEX_digit (n : Z) : Z := if n <? 10 then 48 + n else 55 + n.

(** ['%{:02X}'.format(b)] for an unsafe byte. *)
Definition quote_byte (b : Z) : pystr :=
  if safe_byte b then [b] else [37; HEX_digit (b / 16); HEX_digit (b mod 16)].

(** [quote(s)]: the UTF-8 bytes of [s], each kept or percent-escaped. *)
Definition quote (s : pystr) : result pystr :=
  bs <- Py.encode s ;; Ok (flat_map quote_byte bs).

End Urllib.

(** ** Case conversion

    [str.lower] and [str.title] are driven by the interpreter's Unicode
    database, which is no part of the repository.  They are an interface:
    what is fixed is their behaviour on ASCII text, and that lowering never
    turns a well-formed string into one with a lone surrogate. *)

Definition is_ascii (c : Z) : bool := (0 <=? c) && (c <? 128).
Definition is_upper (c : Z) : bool := (65 <=? c) && (c <=? 90).
Definition is_lower (c : Z) : bool := (97 <=? c) && (c <=? 122).

Definition ascii_lower_char (c : Z) : Z := if is_upper c then c + 32 else c.
Definition ascii_upper_char (c : Z) : Z := if is_lower c then c - 32 else c.

Definition ascii_lower (s : pystr) : pystr := map ascii_lower_char s.

(** [title]: a cased character is upper-cased when the one before it is not
    cased and lower-cased when it is. *)
Fixpoint ascii_title_from (previous_is_cased : bool) (s : pystr) : pystr :=
  match s with
  | [] => []
  | c :: r =>
      (if previous_is_cased then ascii_lower_char c else ascii_upper_char c)
        :: ascii_title_from (is_upper c || is_lower c) r
  end.

Definition ascii_title (s : pystr) : pystr := ascii_title_from false s.

Class UnicodeData : Type := {
  str_lower : pystr -> pystr;
  str_title : pystr -> pystr;
  str_lower_ascii :
    forall s, forallb is_ascii s = true -> str_lower s = ascii_lower s;
  str_title_ascii :
    forall s, forallb is_ascii s = true -> str_title s = ascii_title s;
  str_lower_encodable :
    forall s, Py.encodable s -> Py.encodable (str_lower s)
}.

(** ** The HTTP client

    [requests.head(url, timeout=...)] either returns a response carrying a
    status code or raises. *)
Record Response : Set := { status_code : Z }.

(** [try: body except: handler] with a bare [except], which catches every
    exception. *)
Definition try_except {A : Type} (body handler : result A) : result A :=
  match body with
  | Ok a => Ok a
  | Raise _ => handler
  end.

(** ** [class SeikoAssetManager] *)

Definition AssetRecord : Type := Py.dict pystr pystr.

Definition SEIKO_WATCH_CATEGORIES : Py.dict pystr (list pystr) :=
  [ (py "hero",
      [py "seiko+watch+luxury"; py "luxury+timepiece"; py "premium+watch";
       py "seiko+automatic"; py "watch+collection"; py "luxury+wristwatch"]);
    (py "products",
      [py "seiko+watch+face"; py "watch+detail"; py "timepiece+close";
       py "luxury+watch+band"; py "seiko+movement"; py "watch+craftsmanship"]);
    (py "lifestyle",
      [py "businessman+watch"; py "luxury+lifestyle"; py "professional+timepiece";
       py "watch+wrist"; py "elegant+watch"; py "premium+accessories"]);
    (py "collections",
      [py "seiko+prospex"; py "seiko+presage"; py "seiko+astron";
       py "watch+collection+display"; py "luxury+watch+showcase"; py "timepiece+gallery"]);
    (py "craftsmanship",
      [py "watch+mechanism"; py "seiko+movement"; py "watchmaking+craft";
       py "precision+engineering"; py "japanese+craftsmanship"; py "horological+art"]);
    (py "trust",
      [py "luxury+service"; py "watch+warranty"; py "premium+support";
       py "professional+consultation"; py "authorized+dealer"; py "watch+expertise"]) ].

Definition FALLBACK_CATEGORIES : Py.dict pystr (list pystr) :=
  [ (py "hero", [py "luxury"; py "premium"; py "elegant"; py "sophisticated"]);
    (py "products", [py "product"; py "detail"; py "quality"; py "craftsmanship"]);
    (py "lifestyle", [py "lifestyle"; py "professional"; py "business"; py "elegant"]);
    (py "collections", [py "collection"; py "gallery"; py "showcase"; py "display"]);
    (py "craftsmanship", [py "precision"; py "engineering"; py "craft"; py "art"]);
    (py "trust", [py "service"; py "quality"; py "professional"; py "trust"]) ].

Record SeikoAssetManager : Type := {
  cache_dir : pystr;
  base_unsplash_url : pystr;
  base_picsum_url : pystr
}.

(** [__init__]: [mkdir] is what [self.cache_dir.mkdir(parents=True,
    exist_ok=True)] does in the process at hand: it returns or raises. *)
Definition __init__ (mkdir : pystr -> result unit) : result SeikoAssetManager :=
  let cache := py "app/static/images/cache" in
  _ <- mkdir cache ;;
  Ok {| cache_dir := cache;
        base_unsplash_url := py "https://source.unsplash.com";
        base_picsum_url := py "https://picsum.photos" |}.

(** [int(hashlib.md5(key.encode()).hexdigest()[:8], 16) % 10000], the
    expression the three methods share. *)
Definition seed_of (key : pystr) : result Z :=
  bs <- Py.encode key ;;
  n <- Py.int16 (firstn 8 (MD5.hexdigest bs)) ;;
  Py.mod_ n 10000.

(** [assets[section] = section_images] *)
Fixpoint dict_setitem {V : Type} (d : Py.dict pystr V) (k : pystr) (v : V)
  : Py.dict pystr V :=
  match d with
  | [] => [(k, v)]
  | (k', v') :: r =>
      if Py.str_eqb k' k then (k', v) :: r else (k', v') :: dict_setitem r k v
  end.

(** The [if]/[elif] chain of [get_product_image] that assigns
    [search_terms]. *)
Definition product_search_terms (clean_name image_type : pystr) : list pystr :=
  if Py.str_eqb image_type (py "main") then
    [py "seiko+" ++ clean_name; clean_name ++ py "+watch"; py "luxury+watch"]
  else if Py.str_eqb image_type (py "detail") then
    [clean_name ++ py "+detail"; py "watch+mechanism"; py "watch+face"]
  else if Py.str_eqb image_type (py "lifestyle") then
    [clean_name ++ py "+lifestyle"; py "watch+wrist"; py "luxury+lifestyle"]
  else
    [py "seiko+watch"; py "luxury+timepiece"].

(** The [search_terms] dict of [get_hero_banner]. *)
Definition hero_search_terms : Py.dict pystr pystr :=
  [ (py "luxury", py "seiko+luxury+watch+collection");
    (py "sport", py "seiko+prospex+sport+watch");
    (py "dress", py "seiko+presage+dress+watch");
    (py "solar", py "seiko+astron+solar+watch") ].

Section Manager.

Context {U : UnicodeData}.
Variable self : SeikoAssetManager.

(** The body of the inner loop of [get_seiko_assets]. *)
Definition section_image (section : pystr) (keywords : list pystr) (i : Z)
  : result AssetRecord :=
  ki <- Py.mod_ i (Py.len keywords) ;;
  keyword <- Py.getitem keywords ki ;;
  fallbacks <- Py.dict_getitem FALLBACK_CATEGORIES section ;;
  fi <- Py.mod_ i (Py.len fallbacks) ;;
  fallback_keyword <- Py.getitem fallbacks fi ;;
  seed <- seed_of (py "seiko_" ++ section ++ py "_" ++ Py.str_of_int i) ;;
  qk <- Urllib.quote keyword ;;
  let primary_url :=
    base_unsplash_url self ++ py "/1200x800/?" ++ qk ++ py "&sig=" ++ Py.str_of_int seed in
  qf <- Urllib.quote fallback_keyword ;;
  let secondary_url :=
    base_unsplash_url self ++ py "/1200x800/?" ++ qf ++ py "&sig=" ++ Py.str_of_int seed in
  let fallback_url :=
    base_picsum_url self ++ py "/1200/800?random=" ++ Py.str_of_int seed in
  Ok [ (py "primary", primary_url);
       (py "secondary", secondary_url);
       (py "fallback", fallback_url);
       (py "alt", py "Professional Seiko " ++ Py.replace1 keyword 43 32 ++ py " imagery");
       (py "title", py "Seiko " ++ str_title section ++ py " - "
                      ++ str_title (Py.replace1 keyword 43 32)) ].

(** The outer loop over [SEIKO_WATCH_CATEGORIES.items()]. *)
Fixpoint for_sections (section_count : Z) (items : list (pystr * list pystr))
    (assets : Py.dict pystr (list AssetRecord))
  : result (Py.dict pystr (list AssetRecord)) :=
  match items with
  | [] => Ok assets
  | (section, keywords) :: rest =>
      section_images <-
        mapM (section_image section keywords)
             (Py.range (Z.min section_count (Py.len keywords))) ;;
      for_sections section_count rest (dict_setitem assets section section_images)
  end.

Definition get_seiko_assets (section_count : Z)
  : result (Py.dict pystr (list AssetRecord)) :=
  for_sections section_count SEIKO_WATCH_CATEGORIES [].

Definition get_product_image (product_name image_type : pystr) : result AssetRecord :=
  let clean_name := Py.replace1 (str_lower product_name) 32 43 in
  seed <- seed_of (clean_name ++ py "_" ++ image_type) ;;
  let search_terms := product_search_terms clean_name image_type in
  t0 <- Py.getitem search_terms 0 ;;
  q0 <- Urllib.quote t0 ;;
  t1 <- Py.getitem search_terms 1 ;;
  q1 <- Urllib.quote t1 ;;
  Ok [ (py "primary",
         base_unsplash_url self ++ py "/800x800/?" ++ q0 ++ py "&sig=" ++ Py.str_of_int seed);
       (py "secondary",
         base_unsplash_url self ++ py "/800x800/?" ++ q1 ++ py "&sig=" ++ Py.str_of_int seed);
       (py "fallback",
         base_picsum_url self ++ py "/800/800?random=" ++ Py.str_of_int seed);
       (py "alt", product_name ++ py " - Professional watch photography");
       (py "title", product_name) ].

Definition get_hero_banner (collection : pystr) : result AssetRecord :=
  seed <- seed_of (py "hero_" ++ collection) ;;
  let search_term :=
    Py.dict_get hero_search_terms collection (py "seiko+watch+luxury") in
  q <- Urllib.quote search_term ;;
  Ok [ (py "primary",
         base_unsplash_url self ++ py "/1920x600/?" ++ q ++ py "&sig=" ++ Py.str_of_int seed);
       (py "secondary",
         base_unsplash_url self ++ py "/1920x600/?luxury+timepiece&sig=" ++ Py.str_of_int seed);
       (py "fallback",
         base_picsum_url self ++ py "/1920/600?random=" ++ Py.str_of_int seed);
       (py "alt", py "Seiko " ++ str_title collection ++ py " Collection - Premium timepieces");
       (py "title", py "Seiko " ++ str_title collection ++ py " Collection") ].

(** [requests_head url timeout] is the outcome of [requests.head(url,
    timeout=timeout)] on the network at hand. *)
Definition validate_image_url (requests_head : pystr -> Z -> result Response)
    (url : pystr) : result bool :=
  try_except
    (response <- requests_head url 5 ;;
     Ok (status_code response =? 200))
    (Ok false).

End Manager.

(** ** Vocabulary of the properties *)

(** The integer a byte string denotes, most significant byte first. *)
Definition be_uint (bs : pybytes) : Z := fold_left (fun acc b => 256 * acc + b) bs 0.

Definition is_byte (b : Z) : Prop := 0 <= b < 256.

(** The common layout: two keyword-search URLs and a seed-only URL, then the
    two texts. *)
Definition tiered_record (self : SeikoAssetManager) (search picsum : pystr)
    (q0 q1 : pystr) (seed : Z) (alt title : pystr) : AssetRecord :=
  [ (py "primary",
      base_unsplash_url self ++ search ++ q0 ++ py "&sig=" ++ Py.str_of_int seed);
    (py "secondary",
      base_unsplash_url self ++ search ++ q1 ++ py "&sig=" ++ Py.str_of_int seed);
    (py "fallback", base_picsum_url self ++ picsum ++ Py.str_of_int seed);
    (py "alt", alt);
    (py "title", title) ].

(** All five keys are present. *)
Definition has_all_fields (r : AssetRecord) : Prop :=
  exists primary secondary fallback alt title,
    Py.dict_find r (py "primary") = Some primary
    /\ Py.dict_find r (py "secondary") = Some secondary
    /\ Py.dict_find r (py "fallback") = Some fallback
    /\ Py.dict_find r (py "alt") = Some alt
    /\ Py.dict_find r (py "title") = Some title.

(** The three URLs of [r] carry the seed [seed]. *)
Definition seeded_by (self : SeikoAssetManager) (search picsum : pystr)
    (seed : Z) (r : AssetRecord) : Prop :=
  exists q0 q1,
    Py.dict_find r (py "primary")
    = Some (base_unsplash_url self ++ search ++ q0 ++ py "&sig=" ++ Py.str_of_int seed)
    /\ Py.dict_find r (py "secondary")
       = Some (base_unsplash_url self ++ search ++ q1 ++ py "&sig=" ++ Py.str_of_int seed)
    /\ Py.dict_find r (py "fallback")
       = Some (base_picsum_url self ++ picsum ++ Py.str_of_int seed).

(** The three URLs of [r] carry one seed of [0, 9999]. *)
Definition shares_seed (self : SeikoAssetManager) (search picsum : pystr)
    (r : AssetRecord) : Prop :=
  exists seed, 0 <= seed <= 9999 /\ seeded_by self search picsum seed r.

Section Vocabulary.

Context {U : UnicodeData}.
Variable self : SeikoAssetManager.

(** What one pass of the inner loop of [get_seiko_assets] yields when it
    returns. *)
Definition section_record (section : pystr) (keywords : list pystr) (i : Z)
    (r : AssetRecord) : Prop :=
  exists keyword fallbacks fallback_keyword seed qk qf,
    Py.getitem keywords (i mod Py.len keywords) = Ok keyword
    /\ Py.dict_find FALLBACK_CATEGORIES section = Some fallbacks
    /\ Py.getitem fallbacks (i mod Py.len fallbacks) = Ok fallback_keyword
    /\ seed_of (py "seiko_" ++ section ++ py "_" ++ Py.str_of_int i) = Ok seed
    /\ Urllib.quote keyword = Ok qk
    /\ Urllib.quote fallback_keyword = Ok qf
    /\ r = tiered_record self (py "/1200x800/?") (py "/1200/800?random=") qk qf seed
             (py "Professional Seiko " ++ Py.replace1 keyword 43 32 ++ py " imagery")
             (py "Seiko " ++ str_title section ++ py " - "
                ++ str_title (Py.replace1 keyword 43 32)).

(** The images of one section: one record per index of the range. *)
Definition section_images_of (section_count : Z) (section : pystr)
    (keywords : list pystr) (images : list AssetRecord) : Prop :=
  Forall2 (fun i r => section_image self section keywords i = Ok r)
          (Py.range (Z.min section_count (Py.len keywords))) images.

(** [clean_name] of [get_product_image]. *)
Definition clean_name_of (product_name : pystr) : pystr :=
  Py.replace1 (str_lower product_name) 32 43.

End Vocabulary.

(** ** The ASCII instance of the case tables

    Every code point outside ASCII is taken as uncased.  It serves to run the
    methods on the ASCII inputs of the examples below. *)

Lemma scalar_value_lower (c : Z) :
  Py.scalar_value c = true -> Py.scalar_value (ascii_lower_char c) = true.
Proof.
  unfold ascii_lower_char, is_upper, Py.scalar_value.
  destruct ((65 <=? c) && (c <=? 90)) eqn:E; [| tauto].
  intros _. apply andb_true_iff in E as [E1 E2].
  apply Z.leb_le in E1, E2.
  apply orb_true_iff. left. apply andb_true_iff.
  split; [apply Z.leb_le | apply Z.ltb_lt]; lia.
Qed.

Lemma ascii_lower_encodable (s : pystr) :
  Py.encodable s -> Py.encodable (ascii_lower s).
Proof.
  unfold Py.encodable, ascii_lower. intros H.
  apply Forall_map. eapply Forall_impl; [| exact H].
  intros c Hc. now apply scalar_value_lower.
Qed.

#[export] Instance ascii_case : UnicodeData := {|
  str_lower := ascii_lower;
  str_title := ascii_title;
  str_lower_ascii := fun s _ => eq_refl;
  str_title_ascii := fun s _ => eq_refl;
  str_lower_encodable := ascii_lower_encodable
|}.

(** The manager a process gets when [mkdir] succeeds. *)
Definition asset_manager : SeikoAssetManager :=
  {| cache_dir := py "app/static/images/cache";
     base_unsplash_url := py "https://source.unsplash.com";
     base_picsum_url := py "https://picsum.photos" |}.

(** ** [Settings.parse_debug] ([app/core/config.py])

    The validator runs before type coercion ([pre=True]), so it sees the raw
    value: a string from the environment or the [.env] file, or whatever a
    caller passed.  The values modelled are [None], booleans, integers,
    strings and bytes. *)
Inductive pyval : Type :=
| VNone
| VBool (b : bool)
| VInt (n : Z)
| VStr (s : pystr)
| VBytes (b : pybytes).

(** [bool(v)] *)
Definition truthy (v : pyval) : bool :=
  match v with
  | VNone => false
  | VBool b => b
  | VInt n => negb (n =? 0)
  | VStr s => negb (Py.len s =? 0)
  | VBytes b => negb (Py.len b =? 0)
  end.

(** [x in (t1, t2, ...)] on strings *)
Definition str_in (x : pystr) (ts : list pystr) : bool :=
  existsb (fun t => Py.str_eqb t x) ts.

Definition parse_debug {U : UnicodeData} (v : pyval) : bool :=
  match v with
  | VStr s => str_in (str_lower s) [py "true"; py "1"; py "yes"; py "on"]
  | _ => truthy v
  end.

(** ** The database bootstrap ([app/core/database.py])

    The engine and the session are not code of the repository.  They are
    modelled by what the bootstrap can observe: the committed rows, the rows
    pending in the session, and for each call whether it raises.  [db.add]
    makes a row pending, [db.commit] makes the pending rows committed,
    [db.close] and a new session drop what is pending; a call that raises
    has no effect. *)

(** The value of a column: a string, an integer, a boolean, or a float
    literal kept as written ([CFloat 29500 2] is [295.00]). *)
Inductive colval : Type :=
| CStr (s : pystr)
| CInt (n : Z)
| CBool (b : bool)
| CFloat (digits : Z) (decimals : nat).

(** [Category(...)], [Product(...)], [User(...)]: the table and the keyword
    arguments given. *)
Record Row : Type := {
  row_table : pystr;
  row_fields : list (pystr * colval)
}.

(** The calls that leave the module. *)
Inductive DbOp : Type :=
| OpCreateAll
| OpSessionLocal
| OpCount (table : pystr)
| OpAdd (r : Row)
| OpCommit
| OpImportAuthService
| OpAuthService
| OpPasswordHash (password : pystr)
| OpClose.

Inductive LogLevel : Set := INFO | ERROR.

Record World : Type := {
  rows : list Row;
  pending : list Row;
  calls : list DbOp;
  logs : list (LogLevel * pystr)
}.

(** A computation on the world that returns or raises. *)
Definition M (A : Type) : Type := World -> result A * World.

Definition retM {A : Type} (a : A) : M A := fun w => (Ok a, w).

Definition raiseM {A : Type} (e : exn) : M A := fun w => (Raise e, w).

Definition bindM {A B : Type} (m : M A) (k : A -> M B) : M B :=
  fun w =>
    match m w with
    | (Ok a, w') => k a w'
    | (Raise e, w') => (Raise e, w')
    end.

Notation "x <~ m ;; k" := (bindM m (fun x => k))
  (at level 61, m at next level, right associativity).

(** [for x in xs: f(x)] *)
Fixpoint forM_ {A : Type} (f : A -> M unit) (xs : list A) : M unit :=
  match xs with
  | [] => retM tt
  | x :: r => _ <~ f x ;; forM_ f r
  end.

(** [try: body finally: final]: [final] always runs; when it raises, its
    exception is the one that leaves. *)
Definition try_finally {A : Type} (body : M A) (final : M unit) : M A :=
  fun w =>
    match body w with
    | (outcome, w1) =>
        match final w1 with
        | (Ok _, w2) => (outcome, w2)
        | (Raise e, w2) => (Raise e, w2)
        end
    end.

(** [Exception] and its subclasses; [KeyboardInterrupt] derives from
    [BaseException] only. *)
Definition is_Exception (e : exn) : bool :=
  match e with
  | KeyboardInterrupt => false
  | _ => true
  end.

(** [try: body except Exception as e: handler(e)] *)
Definition try_except_Exception {A : Type} (body : M A) (handler : exn -> M A) : M A :=
  fun w =>
    match body w with
    | (Ok a, w1) => (Ok a, w1)
    | (Raise e, w1) => if is_Exception e then handler e w1 else (Raise e, w1)
    end.

(** [app_logger.info(msg)], [app_logger.error(msg)]: the logging module
    does not let a handler's failure reach the caller. *)
Definition log (level : LogLevel) (msg : pystr) : M unit :=
  fun w =>
    (Ok tt, {| rows := rows w; pending := pending w; calls := calls w;
               logs := logs w ++ [(level, msg)] |}).

Definition record_call (op : DbOp) (w : World) : World :=
  {| rows := rows w; pending := pending w; calls := calls w ++ [op]; logs := logs w |}.

Definition open_session (w : World) : World :=
  {| rows := rows w; pending := []; calls := calls w; logs := logs w |}.

Definition add_row (r : Row) (w : World) : World :=
  {| rows := rows w; pending := pending w ++ [r]; calls := calls w; logs := logs w |}.

Definition commit_rows (w : World) : World :=
  {| rows := rows w ++ pending w; pending := []; calls := calls w; logs := logs w |}.

Definition close_session (w : World) : World :=
  {| rows := rows w; pending := []; calls := calls w; logs := logs w |}.

Definition count_rows (table : pystr) (rs : list Row) : Z :=
  Py.len (filter (fun r => Py.str_eqb (row_table r) table) rs).

Definition sample_categories : list Row :=
  [ {| row_table := py "categories";
     row_fields :=
       [ (py "name", CStr (py "Prospex"));
         (py "description", CStr (py "Professional sports watches built for adventure and precision"));
         (py "image_url", CStr (py "https://source.unsplash.com/400x300/?seiko+prospex+sport+watch")) ] |};
    {| row_table := py "categories";
     row_fields :=
       [ (py "name", CStr (py "Presage"));
         (py "description", CStr (py "Elegant dress watches showcasing Japanese craftsmanship"));
         (py "image_url", CStr (py "https://source.unsplash.com/400x300/?seiko+presage+dress+watch")) ] |};
    {| row_table := py "categories";
     row_fields :=
       [ (py "name", CStr (py "Astron"));
         (py "description", CStr (py "Solar GPS watches representing cutting-edge technology"));
         (py "image_url", CStr (py "https://source.unsplash.com/400x300/?seiko+astron+solar+watch")) ] |};
    {| row_table := py "categories";
     row_fields :=
       [ (py "name", CStr (py "5 Sports"));
         (py "description", CStr (py "Automatic sports watches with modern style and reliability"));
         (py "image_url", CStr (py "https://source.unsplash.com/400x300/?seiko+5+sports+automatic")) ] |} ].

Definition sample_products : list Row :=
  [ {| row_table := py "products";
     row_fields :=
       [ (py "name", CStr (py "Seiko Prospex Solar Diver"));
         (py "model_number", CStr (py "SNE497"));
         (py "description", CStr (py "Professional solar-powered dive watch with 200m water resistance. Features unidirectional rotating bezel and luminous hands for underwater visibility."));
         (py "price", CFloat 29500 2);
         (py "original_price", CFloat 35000 2);
         (py "stock_quantity", CInt 15);
         (py "category_id", CInt 1);
         (py "movement_type", CStr (py "Solar Quartz"));
         (py "case_material", CStr (py "Stainless Steel"));
         (py "case_diameter", CStr (py "43.5mm"));
         (py "water_resistance", CStr (py "200m"));
         (py "strap_material", CStr (py "Silicone"));
         (py "main_image_url", CStr (py "https://source.unsplash.com/600x600/?seiko+prospex+diver+watch"));
         (py "detail_image_url", CStr (py "https://source.unsplash.com/600x600/?watch+mechanism+detail"));
         (py "lifestyle_image_url", CStr (py "https://source.unsplash.com/600x600/?diving+watch+lifestyle"));
         (py "is_featured", CBool true);
         (py "is_on_sale", CBool true) ] |};
    {| row_table := py "products";
     row_fields :=
       [ (py "name", CStr (py "Seiko Prospex Automatic GMT"));
         (py "model_number", CStr (py "SSK001"));
         (py "description", CStr (py "Robust GMT watch perfect for world travelers. Features 24-hour GMT hand and date display with automatic movement."));
         (py "price", CFloat 42500 2);
         (py "stock_quantity", CInt 8);
         (py "category_id", CInt 1);
         (py "movement_type", CStr (py "Automatic"));
         (py "case_material", CStr (py "Stainless Steel"));
         (py "case_diameter", CStr (py "42mm"));
         (py "water_resistance", CStr (py "100m"));
         (py "strap_material", CStr (py "Stainless Steel"));
         (py "main_image_url", CStr (py "https://source.unsplash.com/600x600/?seiko+gmt+automatic+watch"));
         (py "detail_image_url", CStr (py "https://source.unsplash.com/600x600/?gmt+watch+face+detail"));
         (py "lifestyle_image_url", CStr (py "https://source.unsplash.com/600x600/?travel+watch+lifestyle"));
         (py "is_featured", CBool true) ] |};
    {| row_table := py "products";
     row_fields :=
       [ (py "name", CStr (py "Seiko Presage Cocktail Time"));
         (py "model_number", CStr (py "SRPB41"));
         (py "description", CStr (py "Elegant automatic dress watch inspired by Japanese cocktail culture. Features power reserve indicator and exhibition case back."));
         (py "price", CFloat 35000 2);
         (py "stock_quantity", CInt 12);
         (py "category_id", CInt 2);
         (py "movement_type", CStr (py "Automatic"));
         (py "case_material", CStr (py "Stainless Steel"));
         (py "case_diameter", CStr (py "40.5mm"));
         (py "water_resistance", CStr (py "50m"));
         (py "strap_material", CStr (py "Leather"));
         (py "main_image_url", CStr (py "https://source.unsplash.com/600x600/?seiko+presage+cocktail+dress+watch"));
         (py "detail_image_url", CStr (py "https://source.unsplash.com/600x600/?automatic+movement+exhibition"));
         (py "lifestyle_image_url", CStr (py "https://source.unsplash.com/600x600/?elegant+dress+watch+lifestyle"));
         (py "is_featured", CBool true) ] |};
    {| row_table := py "products";
     row_fields :=
       [ (py "name", CStr (py "Seiko Presage Sharp Edged GMT"));
         (py "model_number", CStr (py "SPB221"));
         (py "description", CStr (py "Modern interpretation of classic design with GMT functionality. Sharp-edged case design with dual-time capability."));
         (py "price", CFloat 49500 2);
         (py "stock_quantity", CInt 6);
         (py "category_id", CInt 2);
         (py "movement_type", CStr (py "Automatic"));
         (py "case_material", CStr (py "Stainless Steel"));
         (py "case_diameter", CStr (py "40.5mm"));
         (py "water_resistance", CStr (py "100m"));
         (py "strap_material", CStr (py "Stainless Steel"));
         (py "main_image_url", CStr (py "https://source.unsplash.com/600x600/?seiko+presage+sharp+edge+gmt"));
         (py "detail_image_url", CStr (py "https://source.unsplash.com/600x600/?sharp+edge+watch+design"));
         (py "lifestyle_image_url", CStr (py "https://source.unsplash.com/600x600/?business+professional+watch")) ] |};
    {| row_table := py "products";
     row_fields :=
       [ (py "name", CStr (py "Seiko Astron GPS Solar"));
         (py "model_number", CStr (py "SSE167"));
         (py "description", CStr (py "Revolutionary GPS solar watch that adjusts to any timezone automatically. Perpetual calendar and world time functionality."));
         (py "price", CFloat 120000 2);
         (py "original_price", CFloat 140000 2);
         (py "stock_quantity", CInt 4);
         (py "category_id", CInt 3);
         (py "movement_type", CStr (py "GPS Solar"));
         (py "case_material", CStr (py "Titanium"));
         (py "case_diameter", CStr (py "44.6mm"));
         (py "water_resistance", CStr (py "100m"));
         (py "strap_material", CStr (py "Titanium"));
         (py "main_image_url", CStr (py "https://source.unsplash.com/600x600/?seiko+astron+gps+solar+titanium"));
         (py "detail_image_url", CStr (py "https://source.unsplash.com/600x600/?gps+solar+watch+technology"));
         (py "lifestyle_image_url", CStr (py "https://source.unsplash.com/600x600/?luxury+technology+watch+lifestyle"));
         (py "is_featured", CBool true);
         (py "is_on_sale", CBool true) ] |};
    {| row_table := py "products";
     row_fields :=
       [ (py "name", CStr (py "Seiko 5 Sports Automatic"));
         (py "model_number", CStr (py "SRPD55"));
         (py "description", CStr (py "Classic automatic sports watch with day-date display. Reliable 4R36 movement with 41-hour power reserve."));
         (py "price", CFloat 19500 2);
         (py "stock_quantity", CInt 20);
         (py "category_id", CInt 4);
         (py "movement_type", CStr (py "Automatic"));
         (py "case_material", CStr (py "Stainless Steel"));
         (py "case_diameter", CStr (py "42.5mm"));
         (py "water_resistance", CStr (py "100m"));
         (py "strap_material", CStr (py "Nylon NATO"));
         (py "main_image_url", CStr (py "https://source.unsplash.com/600x600/?seiko+5+sports+automatic+nato"));
         (py "detail_image_url", CStr (py "https://source.unsplash.com/600x600/?automatic+watch+movement+4r36"));
         (py "lifestyle_image_url", CStr (py "https://source.unsplash.com/600x600/?casual+sports+watch+lifestyle")) ] |};
    {| row_table := py "products";
     row_fields :=
       [ (py "name", CStr (py "Seiko 5 Sports Street Style"));
         (py "model_number", CStr (py "SRPD79"));
         (py "description", CStr (py "Modern street-style automatic watch with bold design. Perfect for everyday wear with reliable automatic movement."));
         (py "price", CFloat 22500 2);
         (py "stock_quantity", CInt 18);
         (py "category_id", CInt 4);
         (py "movement_type", CStr (py "Automatic"));
         (py "case_material", CStr (py "Stainless Steel"));
         (py "case_diameter", CStr (py "42.5mm"));
         (py "water_resistance", CStr (py "100m"));
         (py "strap_material", CStr (py "Silicone"));
         (py "main_image_url", CStr (py "https://source.unsplash.com/600x600/?seiko+5+sports+street+style"));
         (py "detail_image_url", CStr (py "https://source.unsplash.com/600x600/?modern+watch+design+detail"));
         (py "lifestyle_image_url", CStr (py "https://source.unsplash.com/600x600/?street+style+watch+casual")) ] |} ].

Definition admin_user (hashed_password : pystr) : Row :=
  {| row_table := py "users";
     row_fields :=
       [ (py "username", CStr (py "admin"));
         (py "email", CStr (py "admin@seikostore.com"));
         (py "full_name", CStr (py "Store Administrator"));
         (py "hashed_password", CStr hashed_password);
         (py "is_admin", CBool true) ] |}.

Definition demo_user (hashed_password : pystr) : Row :=
  {| row_table := py "users";
     row_fields :=
       [ (py "username", CStr (py "demo"));
         (py "email", CStr (py "demo@example.com"));
         (py "full_name", CStr (py "Demo User"));
         (py "hashed_password", CStr hashed_password) ] |}.

Section Database.

(** Whether a call raises, given the calls made so far. *)
Variable faults : list DbOp -> DbOp -> option exn.

(** [AuthService.get_password_hash], which is not in the sources at hand. *)
Variable get_password_hash : pystr -> pystr.

(** [str(e)] *)
Variable exn_text : exn -> pystr.

(** One call: it is recorded, then it raises or takes effect. *)
Definition call {A : Type} (op : DbOp) (value : World -> A) (effect : World -> World)
  : M A :=
  fun w =>
    match faults (calls w) op with
    | Some e => (Raise e, record_call op w)
    | None => (Ok (value (record_call op w)), effect (record_call op w))
    end.

Definition db_add (r : Row) : M unit := call (OpAdd r) (fun _ => tt) (add_row r).

Definition db_commit : M unit := call OpCommit (fun _ => tt) commit_rows.

Definition db_close : M unit := call OpClose (fun _ => tt) close_session.

(** [db.query(Category).count()]; the session does not autoflush. *)
Definition query_count (table : pystr) : M Z :=
  call (OpCount table) (fun w => count_rows table (rows w)) (fun w => w).

Definition password_hash (password : pystr) : M pystr :=
  call (OpPasswordHash password) (fun _ => get_password_hash password) (fun w => w).

Definition create_sample_data : M unit :=
  _ <~ forM_ db_add sample_categories ;;
  _ <~ db_commit ;;
  _ <~ forM_ db_add sample_products ;;
  _ <~ call OpImportAuthService (fun _ => tt) (fun w => w) ;;
  _ <~ call OpAuthService (fun _ => tt) (fun w => w) ;;
  admin_hash <~ password_hash (py "admin123") ;;
  _ <~ db_add (admin_user admin_hash) ;;
  demo_hash <~ password_hash (py "demo123") ;;
  _ <~ db_add (demo_user demo_hash) ;;
  _ <~ db_commit ;;
  log INFO (py "Sample data created: 4 categories, 7 products, 2 users").

Definition init_database : M unit :=
  try_except_Exception
    (_ <~ call OpCreateAll (fun _ => tt) (fun w => w) ;;
     _ <~ log INFO (py "Database tables created successfully") ;;
     _ <~ call OpSessionLocal (fun _ => tt) open_session ;;
     try_finally
       (n <~ query_count (py "categories") ;;
        if n =? 0 then
          _ <~ create_sample_data ;;
          log INFO (py "Sample data created successfully")
        else
          log INFO (py "Sample data already exists"))
       db_close)
    (fun e =>
       _ <~ log ERROR (py "Error initializing database: " ++ exn_text e) ;;
       raiseM e).

End Database.

(** ** [get_db_session]: a generator

    The function yields once, inside [try ... finally: db.close()].  A
    generator is driven from outside by [next], [throw] and [close] (which
    is also what discarding it does); it has not started, is suspended at
    its [yield], or has finished. *)
Inductive GenState : Set := GenCreated | GenSuspended | GenFinished.

Inductive GenCmd : Set := GenNext | GenThrow (e : exn) | GenClose.

(** What the caller gets: the yielded session, [StopIteration], an
    exception, or the plain return of [close()]. *)
Inductive GenResult : Set :=
| GenYielded
| GenStopIteration
| GenRaised (e : exn)
| GenReturned.

(** What a command gives when the generator body has nothing left to run. *)
Definition gen_leave (cmd : GenCmd) : GenResult :=
  match cmd with
  | GenNext => GenStopIteration
  | GenThrow e => GenRaised e
  | GenClose => GenReturned
  end.

Definition get_db_session (faults : list DbOp -> DbOp -> option exn)
    (cmd : GenCmd) (st : GenState) (w : World) : (GenResult * GenState) * World :=
  match st with
  | GenCreated =>
      match cmd with
      | GenNext =>
          (* db = SessionLocal(); yield db *)
          match call faults OpSessionLocal (fun _ => tt) open_session w with
          | (Ok _, w1) => ((GenYielded, GenSuspended), w1)
          | (Raise e, w1) => ((GenRaised e, GenFinished), w1)
          end
      | _ => ((gen_leave cmd, GenFinished), w)
      end
  | GenSuspended =>
      (* resumed, thrown into or closed at the yield: the try block is left
         and the finally clause runs *)
      match db_close faults w with
      | (Ok _, w1) => ((gen_leave cmd, GenFinished), w1)
      | (Raise e, w1) => ((GenRaised e, GenFinished), w1)
      end
  | GenFinished => ((gen_leave cmd, GenFinished), w)
  end.

(** A caller's sequence of commands. *)
Fixpoint drive (faults : list DbOp -> DbOp -> option exn)
    (cmds : list GenCmd) (st : GenState) (w : World) : GenState * World :=
  match cmds with
  | [] => (st, w)
  | cmd :: rest =>
      match get_db_session faults cmd st w with
      | ((_, st'), w') => drive faults rest st' w'
      end
  end.

(** ** Vocabulary of the bootstrap properties *)

(** A plan under which no call raises. *)
Definition no_faults : list DbOp -> DbOp -> option exn := fun _ _ => None.

Definition is_commit (op : DbOp) : bool :=
  match op with
  | OpCommit => true
  | _ => false
  end.

(** A plan under which the second [db.commit()] raises [e] and nothing else
    does. *)
Definition second_commit_fails (e : exn) : list DbOp -> DbOp -> option exn :=
  fun history op =>
    if is_commit op && existsb is_commit history then Some e else None.

(** The calls made on an open session by the body of the bootstrap. *)
Definition session_op (op : DbOp) : bool :=
  match op with
  | OpCreateAll | OpSessionLocal | OpClose => false
  | _ => true
  end.

(** The rows [create_sample_data] seeds after the categories. *)
Definition sample_rest (get_password_hash : pystr -> pystr) : list Row :=
  sample_products
    ++ [admin_user (get_password_hash (py "admin123"));
        demo_user (get_password_hash (py "demo123"))].

Definition empty_world : World :=
  {| rows := []; pending := []; calls := []; logs := [] |}.

(** The exception a computation left with, if any. *)
Definition exn_of {A : Type} (r : result A) : option exn :=
  match r with
  | Ok _ => None
  | Raise e => Some e
  end.

(** What a stretch of the bootstrap between opening and closing the session
    does, from [w] to [w']: it makes calls on the session only, logs
    informational messages only, and an exception it leaves with is one the
    plan gave to one of its calls. *)
Definition session_run (faults : list DbOp -> DbOp -> option exn)
    (w : World) (raised : option exn) (w' : World) : Prop :=
  exists new msgs,
    calls w' = calls w ++ new
    /\ forallb session_op new = true
    /\ logs w' = logs w ++ map (pair INFO) msgs
    /\ (forall e, raised = Some e ->
        exists before op after,
          new = before ++ op :: after /\ faults (calls w ++ before) op = Some e).

Definition session_sound (faults : list DbOp -> DbOp -> option exn)
    {A : Type} (m : M A) : Prop :=
  forall w, session_run faults w (exn_of (fst (m w))) (snd (m w)).

(** The body of the inner [try] of [init_database]. *)
Definition seed_if_empty (faults : list DbOp -> DbOp -> option exn)
    (get_password_hash : pystr -> pystr) : M unit :=
  n <~ query_count faults (py "categories") ;;
  if n =? 0 then
    _ <~ create_sample_data faults get_password_hash ;;
    log INFO (py "Sample data created successfully")
  else
    log INFO (py "Sample data already exists").

(** The [except Exception] clause of [init_database], applied to what left
    the [try]. *)
Definition log_and_reraise (exn_text : exn -> pystr) (e : exn) (w : World)
  : result unit * World :=
  if is_Exception e then
    (Raise e,
     {| rows := rows w; pending := pending w; calls := calls w;
        logs := logs w ++ [(ERROR, py "Error initializing database: " ++ exn_text e)] |})
  else (Raise e, w).

(** The world once the tables exist, the fact is logged and a session is
    open. *)
Definition session_opened (w : World) : World :=
  open_session
    (record_call OpSessionLocal
       (snd (log INFO (py "Database tables created successfully")
               (record_call OpCreateAll w)))).

(** Where a generator started on [w0] can be, with what it has called. *)
Definition session_generator_at (faults : list DbOp -> DbOp -> option exn)
    (w0 : World) (st : GenState) (w : World) : Prop :=
  match st with
  | GenCreated => calls w = calls w0
  | GenSuspended =>
      calls w = calls w0 ++ [OpSessionLocal]
      /\ faults (calls w0) OpSessionLocal = None
  | GenFinished =>
      calls w = calls w0
      \/ (calls w = calls w0 ++ [OpSessionLocal]
          /\ faults (calls w0) OpSessionLocal <> None)
      \/ (calls w = calls w0 ++ [OpSessionLocal; OpClose]
          /\ faults (calls w0) OpSessionLocal = None)
  end.

(** ** Vocabulary of the further properties *)

(** Characters [quote] lets through or produces: the unreserved ones, [/],
    and the [%] of an escape. *)
Definition query_safe (c : Z) : bool := Urllib.safe_byte c || (c =? 37).

Definition is_digit (c : Z) : bool := (48 <=? c) && (c <=? 57).

(** One to four decimal digits. *)
Definition seed_text (d : pystr) : bool :=
  (1 <=? Py.len d) && (Py.len d <=? 4) && forallb is_digit d.

(** The number a string of decimal digits reads as. *)
Definition int_of_digits (d : pystr) : Z :=
  fold_left (fun acc c => 10 * acc + (c - 48)) d 0.

(** The composite key of record [i] of [section] in [get_seiko_assets]. *)
Definition section_key (section : pystr) (i : Z) : pystr :=
  py "seiko_" ++ section ++ py "_" ++ Py.str_of_int i.

(** Every (section, index) the inner loop of [get_seiko_assets] can reach,
    with the seed of its key. *)
Definition section_seed_table : list ((pystr * Z) * result Z) :=
  flat_map (fun item =>
              map (fun i => ((fst item, i), seed_of (section_key (fst item) i)))
                  (Py.range (Py.len (snd item))))
           SEIKO_WATCH_CATEGORIES.

Definition result_eqb (a b : result Z) : bool :=
  match a, b with
  | Ok x, Ok y => x =? y
  | _, _ => false
  end.

(** No two entries are equal seeds. *)
Fixpoint distinct_seeds (l : list (result Z)) : bool :=
  match l with
  | [] => true
  | x :: r => negb (existsb (result_eqb x) r) && distinct_seeds r
  end.

(** ** Test vectors *)

(** The RFC 1321 test suite, and two messages around the padding boundary. *)
Example md5_empty :
  MD5.hexdigest [] = py "d41d8cd98f00b204e9800998ecf8427e".
Proof. vm_compute. reflexivity. Qed.

Example md5_a :
  MD5.hexdigest (map Z.of_nat [97%nat]) = py "0cc175b9c0f1b6a831c399e269772661".
Proof. vm_compute. reflexivity. Qed.

Example md5_abc :
  bind (Py.encode (py "abc")) (fun b => Ok (MD5.hexdigest b))
  = Ok (py "900150983cd24fb0d6963f7d28e17f72").
Proof. vm_compute. reflexivity. Qed.

Example md5_message_digest :
  bind (Py.encode (py "message digest")) (fun b => Ok (MD5.hexdigest b))
  = Ok (py "f96b697d7cb7938d525a2f31aaf161d0").
Proof. vm_compute. reflexivity. Qed.

Example md5_55_bytes :
  MD5.hexdigest (repeat 97 55) = py "ef1772b6dff9a122358552954ad0df65".
Proof. vm_compute. reflexivity. Qed.

Example md5_56_bytes :
  MD5.hexdigest (repeat 97 56) = py "3b0c8ac703f828b04c6c197006d17218".
Proof. vm_compute. reflexivity. Qed.

Example md5_64_bytes :
  MD5.hexdigest (repeat 97 64) = py "014842d480b571495a4a0363793f7367".
Proof. vm_compute. reflexivity. Qed.

Example md5_80_digits :
  bind (Py.encode
          (py "12345678901234567890123456789012345678901234567890123456789012345678901234567890"))
       (fun b => Ok (MD5.hexdigest b))
  = Ok (py "57edf4a22be3c955ac49da2e2107b67a").
Proof. vm_compute. reflexivity. Qed.

Example quote_plus_is_escaped :
  Urllib.quote (py "seiko+watch") = Ok (py "seiko%2Bwatch").
Proof. vm_compute. reflexivity. Qed.

Example quote_e_acute :
  Urllib.quote [233] = Ok (py "%C3%A9").
Proof. vm_compute. reflexivity. Qed.


Example str_of_int_examples :
  Py.str_of_int 0 = py "0" /\ Py.str_of_int 5448 = py "5448"
  /\ Py.str_of_int (-3) = py "-3".
Proof. repeat split. Qed.

Example encode_examples :
  Py.encode (py "hero_luxury") = Ok [104; 101; 114; 111; 95; 108; 117; 120; 117; 114; 121]
  /\ Py.encode [233] = Ok [0xC3; 0xA9]
  /\ Py.encode [0x20AC] = Ok [0xE2; 0x82; 0xAC]
  /\ Py.encode [0x1F570] = Ok [0xF0; 0x9F; 0x95; 0xB0]
  /\ Py.encode [0xD800] = Raise UnicodeEncodeError.
Proof. repeat split. Qed.

Example init_ok : __init__ (fun _ => Ok tt) = Ok asset_manager.
Proof. reflexivity. Qed.

Example init_mkdir_fails : __init__ (fun _ => Raise OSError) = Raise OSError.
Proof. reflexivity. Qed.

Example title_example :
  ascii_title (py "seiko 5 sports 3d-x") = py "Seiko 5 Sports 3D-X".
Proof. reflexivity. Qed.

Example hero_luxury :
  get_hero_banner (U := ascii_case) asset_manager (py "luxury")
  = Ok [ (py "primary",
          py "https://source.unsplash.com/1920x600/?seiko%2Bluxury%2Bwatch%2Bcollection&sig=282");
         (py "secondary",
          py "https://source.unsplash.com/1920x600/?luxury+timepiece&sig=282");
         (py "fallback", py "https://picsum.photos/1920/600?random=282");
         (py "alt", py "Seiko Luxury Collection - Premium timepieces");
         (py "title", py "Seiko Luxury Collection") ].
Proof. vm_compute. reflexivity. Qed.

Example product_main :
  get_product_image (U := ascii_case) asset_manager (py "Seiko 5 Sports") (py "main")
  = Ok [ (py "primary",
          py "https://source.unsplash.com/800x800/?seiko%2Bseiko%2B5%2Bsports&sig=6335");
         (py "secondary",
          py "https://source.unsplash.com/800x800/?seiko%2B5%2Bsports%2Bwatch&sig=6335");
         (py "fallback", py "https://picsum.photos/800/800?random=6335");
         (py "alt", py "Seiko 5 Sports - Professional watch photography");
         (py "title", py "Seiko 5 Sports") ].
Proof. vm_compute. reflexivity. Qed.

Example section_hero_0 :
  section_image (U := ascii_case) asset_manager (py "hero")
    [py "seiko+watch+luxury"; py "luxury+timepiece"] 0
  = Ok [ (py "primary",
          py "https://source.unsplash.com/1200x800/?seiko%2Bwatch%2Bluxury&sig=9020");
         (py "secondary",
          py "https://source.unsplash.com/1200x800/?luxury&sig=9020");
         (py "fallback", py "https://picsum.photos/1200/800?random=9020");
         (py "alt", py "Professional Seiko seiko watch luxury imagery");
         (py "title", py "Seiko Hero - Seiko Watch Luxury") ].
Proof. vm_compute. reflexivity. Qed.

(** ** Facts about the builtins *)

Lemma str_eqb_eq (a b : pystr) : Py.str_eqb a b = true <-> a = b.
Proof.
  revert b. induction a as [| x a IH]; intros [| y b]; simpl; split;
    try congruence; try reflexivity.
  - intros H. apply andb_true_iff in H as [Hx Hr].
    apply Z.eqb_eq in Hx. apply IH in Hr. congruence.
  - intros H. injection H as -> ->.
    apply andb_true_iff. split; [apply Z.eqb_refl | now apply IH].
Qed.

Lemma encodable_forallb (s : pystr) :
  Py.encodable s <-> forallb Py.scalar_value s = true.
Proof.
  unfold Py.encodable. rewrite forallb_forall, Forall_forall. reflexivity.
Qed.

Lemma encodable_app (a b : pystr) :
  Py.encodable (a ++ b) <-> Py.encodable a /\ Py.encodable b.
Proof. apply Forall_app. Qed.

Lemma encodable_replace1 (s : pystr) (old new : Z) :
  Py.scalar_value new = true -> Py.encodable s ->
  Py.encodable (Py.replace1 s old new).
Proof.
  intros Hn H. unfold Py.encodable, Py.replace1.
  apply Forall_map. eapply Forall_impl; [| exact H].
  intros c Hc. simpl. now destruct (c =? old).
Qed.

Lemma encode_char_ok (c : Z) :
  Py.scalar_value c = true -> exists b, Py.encode_char c = Ok b.
Proof.
  intros H. unfold Py.encode_char. rewrite H. simpl.
  destruct (c <? 128); [eauto |].
  destruct (c <? 2048); [eauto |].
  destruct (c <? 65536); eauto.
Qed.

Lemma encode_char_raise (c : Z) :
  Py.scalar_value c = false -> Py.encode_char c = Raise UnicodeEncodeError.
Proof. intros H. unfold Py.encode_char. now rewrite H. Qed.

Lemma encode_ok (s : pystr) :
  Py.encodable s -> exists bs, Py.encode s = Ok bs.
Proof.
  induction 1 as [| c s Hc _ [bs IH]]; simpl; [eauto |].
  destruct (encode_char_ok c Hc) as [b Hb]. rewrite Hb, IH. simpl. eauto.
Qed.

Lemma encode_raise (s : pystr) :
  ~ Py.encodable s -> Py.encode s = Raise UnicodeEncodeError.
Proof.
  induction s as [| c s IH]; intros H.
  - exfalso. apply H. constructor.
  - simpl. destruct (Py.scalar_value c) eqn:Hc.
    + destruct (encode_char_ok c Hc) as [b ->]. simpl.
      rewrite IH; [reflexivity |].
      intros Hs. apply H. now constructor.
    + now rewrite encode_char_raise.
Qed.

Lemma encodable_dec (s : pystr) : {Py.encodable s} + {~ Py.encodable s}.
Proof.
  destruct (forallb Py.scalar_value s) eqn:E.
  - left. now apply encodable_forallb.
  - right. intros H. apply encodable_forallb in H. congruence.
Qed.

Lemma quote_ok (s : pystr) :
  Py.encodable s -> exists q, Urllib.quote s = Ok q.
Proof.
  intros H. destruct (encode_ok s H) as [bs Hbs].
  unfold Urllib.quote. rewrite Hbs. simpl. eauto.
Qed.

Lemma hex_value_hex_digit (n : Z) :
  0 <= n < 16 -> Py.hex_value (MD5.hex_digit n) = Some n.
Proof.
  intros Hn. unfold Py.hex_value, MD5.hex_digit.
  destruct (Z.ltb_spec n 10).
  - replace ((48 <=? 48 + n) && (48 + n <=? 57)) with true.
    + f_equal. lia.
    + symmetry. apply andb_true_iff. split; apply Z.leb_le; lia.
  - replace ((48 <=? 87 + n) && (87 + n <=? 57)) with false.
    + replace ((97 <=? 87 + n) && (87 + n <=? 102)) with true.
      * f_equal. lia.
      * symmetry. apply andb_true_iff. split; apply Z.leb_le; lia.
    + symmetry. apply andb_false_iff. right. apply Z.leb_gt. lia.
Qed.

Lemma int16_byte (acc b : Z) (r : pystr) :
  is_byte b ->
  Py.int16_digits acc (MD5.hex_digit (b / 16) :: MD5.hex_digit (b mod 16) :: r)
  = Py.int16_digits (256 * acc + b) r.
Proof.
  intros Hb. unfold is_byte in Hb. cbn [Py.int16_digits].
  rewrite hex_value_hex_digit.
  2:{ split; [apply Z.div_pos; lia | apply Z.div_lt_upper_bound; lia]. }
  rewrite hex_value_hex_digit by (apply Z.mod_pos_bound; lia).
  f_equal. pose proof (Z.div_mod b 16). lia.
Qed.

Lemma le_bytes_4 (x : Z) :
  exists b0 b1 b2 b3,
    MD5.le_bytes 4 x = [b0; b1; b2; b3]
    /\ is_byte b0 /\ is_byte b1 /\ is_byte b2 /\ is_byte b3.
Proof.
  cbn [MD5.le_bytes]. do 4 eexists. split; [reflexivity |].
  unfold is_byte. repeat split; apply Z.mod_pos_bound; lia.
Qed.

(** A digest is sixteen bytes; the first four are what the seed reads. *)
Lemma digest_length (msg : pybytes) : length (MD5.digest msg) = 16%nat.
Proof.
  unfold MD5.digest.
  destruct (fold_left MD5.compress _ MD5.init) as [[[a b] c] d].
  reflexivity.
Qed.

Lemma digest_first4 (msg : pybytes) :
  exists b0 b1 b2 b3 rest,
    MD5.digest msg = b0 :: b1 :: b2 :: b3 :: rest
    /\ is_byte b0 /\ is_byte b1 /\ is_byte b2 /\ is_byte b3.
Proof.
  unfold MD5.digest.
  destruct (fold_left MD5.compress _ MD5.init) as [[[a b] c] d].
  destruct (le_bytes_4 a) as (b0 & b1 & b2 & b3 & E & H).
  rewrite E. exists b0, b1, b2, b3. eexists. split; [reflexivity | exact H].
Qed.

Lemma int16_hexdigest_prefix (msg : pybytes) :
  Py.int16 (firstn 8 (MD5.hexdigest msg)) = Ok (be_uint (firstn 4 (MD5.digest msg))).
Proof.
  unfold MD5.hexdigest.
  destruct (digest_first4 msg) as (b0 & b1 & b2 & b3 & rest & E & H0 & H1 & H2 & H3).
  rewrite E. cbn [flat_map app firstn]. unfold Py.int16.
  rewrite !int16_byte by assumption.
  reflexivity.
Qed.

Lemma seed_of_encoded (key : pystr) (bs : pybytes) :
  Py.encode key = Ok bs ->
  seed_of key = Ok (be_uint (firstn 4 (MD5.digest bs)) mod 10000).
Proof.
  intros H. unfold seed_of. rewrite H. cbn [bind].
  rewrite int16_hexdigest_prefix. cbn [bind]. reflexivity.
Qed.

Lemma seed_of_ok (key : pystr) :
  Py.encodable key -> exists seed, seed_of key = Ok seed /\ 0 <= seed <= 9999.
Proof.
  intros H. destruct (encode_ok key H) as [bs Hbs].
  rewrite (seed_of_encoded key bs Hbs). eexists. split; [reflexivity |].
  pose proof (Z.mod_pos_bound (be_uint (firstn 4 (MD5.digest bs))) 10000). lia.
Qed.

Lemma seed_of_raise (key : pystr) :
  ~ Py.encodable key -> seed_of key = Raise UnicodeEncodeError.
Proof. intros H. unfold seed_of. now rewrite encode_raise. Qed.

Lemma seed_of_inv (key : pystr) (seed : Z) :
  seed_of key = Ok seed -> Py.encodable key /\ 0 <= seed <= 9999.
Proof.
  intros H. destruct (encodable_dec key) as [He | He].
  - split; [exact He |].
    destruct (seed_of_ok key He) as (s & Hs & R). congruence.
  - rewrite seed_of_raise in H by exact He. discriminate.
Qed.

(** ** Loops *)

Lemma In_range (n i : Z) : In i (Py.range n) <-> 0 <= i < n.
Proof.
  unfold Py.range. rewrite in_map_iff. split.
  - intros (k & <- & Hk). apply in_seq in Hk. lia.
  - intros H. exists (Z.to_nat i). split; [lia |]. apply in_seq. lia.
Qed.

Lemma range_nonpositive (n : Z) : n <= 0 -> Py.range n = [].
Proof.
  intros H. unfold Py.range. replace (Z.to_nat n) with 0%nat by lia. reflexivity.
Qed.

Lemma range_length (n : Z) : length (Py.range n) = Z.to_nat n.
Proof. unfold Py.range. now rewrite length_map, length_seq. Qed.

Lemma range_nth (n : Z) (k : nat) :
  (k < Z.to_nat n)%nat -> nth_error (Py.range n) k = Some (Z.of_nat k).
Proof.
  intros H. unfold Py.range.
  rewrite nth_error_map, nth_error_seq.
  destruct (Nat.ltb_spec k (Z.to_nat n)); [reflexivity | lia].
Qed.

Lemma mapM_total {A B : Type} (f : A -> result B) (xs : list A) :
  (forall x, In x xs -> exists y, f x = Ok y) -> exists ys, mapM f xs = Ok ys.
Proof.
  induction xs as [| x xs IH]; intros H; simpl; [eauto |].
  destruct (H x (or_introl eq_refl)) as [y ->].
  destruct IH as [ys ->]; [intros; apply H; now right |].
  simpl. eauto.
Qed.

Lemma mapM_inv {A B : Type} (f : A -> result B) (xs : list A) (ys : list B) :
  mapM f xs = Ok ys -> Forall2 (fun x y => f x = Ok y) xs ys.
Proof.
  revert ys. induction xs as [| x xs IH]; simpl; intros ys H.
  - injection H as <-. constructor.
  - destruct (f x) as [y |] eqn:Hy; [| discriminate]. cbn [bind] in H.
    destruct (mapM f xs) as [ys' |]; [| discriminate]. cbn [bind] in H.
    injection H as <-. constructor; [assumption | now apply IH].
Qed.

Lemma Forall2_nth_error {A B : Type} (R : A -> B -> Prop) (xs : list A) (ys : list B) :
  Forall2 R xs ys ->
  forall k x, nth_error xs k = Some x -> exists y, nth_error ys k = Some y /\ R x y.
Proof.
  induction 1 as [| x0 y0 xs ys H0 _ IH]; intros [| k] x Hk; simpl in *;
    try discriminate.
  - injection Hk as <-. eauto.
  - eauto.
Qed.

Lemma dict_setitem_fresh {V : Type} (d : Py.dict pystr V) (k : pystr) (v : V) :
  ~ In k (map fst d) -> dict_setitem d k v = d ++ [(k, v)].
Proof.
  induction d as [| [k' v'] d IH]; simpl; intros H; [reflexivity |].
  destruct (Py.str_eqb k' k) eqn:E.
  - apply str_eqb_eq in E. tauto.
  - rewrite IH by tauto. reflexivity.
Qed.

Lemma getitem_nth {A : Type} (xs : list A) (i : Z) (x : A) :
  0 <= i -> Py.getitem xs i = Ok x <-> nth_error xs (Z.to_nat i) = Some x.
Proof.
  intros Hi. unfold Py.getitem.
  destruct (Z.ltb_spec i 0); [lia |].
  destruct (Z.ltb_spec i 0); [lia |].
  destruct (nth_error xs (Z.to_nat i)); split; congruence.
Qed.

(** A computation that returned went through each of its steps. *)
Lemma bind_Ok_inv {A B : Type} (m : result A) (k : A -> result B) (b : B) :
  bind m k = Ok b -> exists a, m = Ok a /\ k a = Ok b.
Proof. destruct m as [a |]; simpl; [eauto | discriminate]. Qed.

(** ** The records the three methods build *)

Lemma tiered_record_fields self search picsum q0 q1 seed alt title :
  has_all_fields (tiered_record self search picsum q0 q1 seed alt title).
Proof. unfold has_all_fields, tiered_record. do 5 eexists. repeat split. Qed.

Lemma tiered_record_seeded_by self search picsum q0 q1 seed alt title :
  seeded_by self search picsum seed
    (tiered_record self search picsum q0 q1 seed alt title).
Proof. exists q0, q1. repeat split. Qed.

Section ManagerFacts.

Context {U : UnicodeData}.
Variable self : SeikoAssetManager.

Lemma mod_inv (a b m : Z) : Py.mod_ a b = Ok m -> m = a mod b.
Proof. unfold Py.mod_. destruct (b =? 0); congruence. Qed.

Lemma section_image_inv section keywords i r :
  section_image self section keywords i = Ok r -> section_record self section keywords i r.
Proof.
  unfold section_image. intros H.
  apply bind_Ok_inv in H as (ki & Hki & H). apply mod_inv in Hki. subst ki.
  apply bind_Ok_inv in H as (keyword & Hkw & H).
  apply bind_Ok_inv in H as (fallbacks & Hfbs & H).
  unfold Py.dict_getitem in Hfbs.
  destruct (Py.dict_find FALLBACK_CATEGORIES section) as [fallbacks' |] eqn:Ef;
    [| discriminate].
  injection Hfbs as ->.
  apply bind_Ok_inv in H as (fi & Hfi & H). apply mod_inv in Hfi. subst fi.
  apply bind_Ok_inv in H as (fallback_keyword & Hfb & H).
  apply bind_Ok_inv in H as (seed & Hseed & H).
  apply bind_Ok_inv in H as (qk & Hqk & H).
  apply bind_Ok_inv in H as (qf & Hqf & H).
  injection H as <-.
  exists keyword, fallbacks, fallback_keyword, seed, qk, qf.
  repeat split; assumption.
Qed.

Lemma for_sections_spec section_count items assets :
  NoDup (map fst items) ->
  (forall k, In k (map fst items) -> ~ In k (map fst assets)) ->
  (forall section keywords i,
      In (section, keywords) items ->
      0 <= i < Z.min section_count (Py.len keywords) ->
      exists r, section_image self section keywords i = Ok r) ->
  exists out,
    for_sections self section_count items assets = Ok (assets ++ out)
    /\ Forall2 (fun item entry =>
                  fst entry = fst item
                  /\ section_images_of self section_count (fst item) (snd item) (snd entry))
               items out.
Proof.
  revert assets. induction items as [| [section keywords] items IH];
    intros assets Hnd Hfresh Htot.
  - exists []. simpl. rewrite app_nil_r. split; [reflexivity | constructor].
  - cbn [for_sections].
    destruct (mapM_total (section_image self section keywords)
                (Py.range (Z.min section_count (Py.len keywords)))) as [imgs Himgs].
    { intros i Hi. apply In_range in Hi. apply (Htot section keywords i); [now left | exact Hi]. }
    rewrite Himgs. cbn [bind].
    rewrite dict_setitem_fresh by (apply Hfresh; now left).
    simpl in Hnd. inversion Hnd as [| ? ? Hnotin Hnd']; subst.
    destruct (IH (assets ++ [(section, imgs)])) as (out & Hout & Hall).
    + exact Hnd'.
    + intros k Hk. rewrite map_app, in_app_iff. simpl.
      intros [Hin | [<- | []]].
      * apply (Hfresh k); [now right | exact Hin].
      * contradiction.
    + intros s kw i Hin Hi. apply (Htot s kw i); [now right | exact Hi].
    + exists ((section, imgs) :: out). split.
      * rewrite Hout, <- app_assoc. reflexivity.
      * constructor; [| exact Hall]. simpl. split; [reflexivity |].
        apply mapM_inv. exact Himgs.
Qed.

End ManagerFacts.

(** ** The keyword tables *)

Lemma section_names_distinct : NoDup (map fst SEIKO_WATCH_CATEGORIES).
Proof.
  assert (E : map fst SEIKO_WATCH_CATEGORIES
              = [py "hero"; py "products"; py "lifestyle"; py "collections";
                 py "craftsmanship"; py "trust"]) by reflexivity.
  rewrite E. clear E.
  repeat (constructor;
          [ simpl; intros H;
            repeat (destruct H as [H | H]; [vm_compute in H; discriminate H |]);
            exact H |]).
  constructor.
Qed.

Lemma every_section_has_six_keywords section keywords :
  In (section, keywords) SEIKO_WATCH_CATEGORIES -> Py.len keywords = 6.
Proof.
  unfold SEIKO_WATCH_CATEGORIES. simpl.
  intros H.
  repeat (destruct H as [H | H]; [injection H as <- <-; reflexivity |]).
  contradiction.
Qed.

Section TableFacts.

Context {U : UnicodeData}.
Variable self : SeikoAssetManager.

(** Every index the inner loop can reach yields a record: the table texts
    are ASCII, every list is non-empty and every section has fallbacks. *)
Lemma section_image_total section keywords i :
  In (section, keywords) SEIKO_WATCH_CATEGORIES ->
  0 <= i < 6 ->
  exists r, section_image self section keywords i = Ok r.
Proof.
  intros Hin Hi.
  assert (Hcases : i = 0 \/ i = 1 \/ i = 2 \/ i = 3 \/ i = 4 \/ i = 5) by lia.
  unfold SEIKO_WATCH_CATEGORIES in Hin. simpl in Hin.
  repeat (destruct Hin as [Hin | Hin];
          [ injection Hin as <- <-;
            decompose [or] Hcases; subst i; eexists; vm_compute; reflexivity |]).
  contradiction.
Qed.

Lemma get_seiko_assets_spec section_count :
  exists assets,
    get_seiko_assets self section_count = Ok assets
    /\ Forall2 (fun item entry =>
                  fst entry = fst item
                  /\ section_images_of self section_count (fst item) (snd item) (snd entry))
               SEIKO_WATCH_CATEGORIES assets.
Proof.
  unfold get_seiko_assets.
  destruct (for_sections_spec self section_count SEIKO_WATCH_CATEGORIES [])
    as (out & Hout & Hall).
  - apply section_names_distinct.
  - intros k _ [].
  - intros section keywords i Hin Hi.
    apply section_image_total; [exact Hin |].
    rewrite (every_section_has_six_keywords section keywords Hin) in Hi. lia.
  - exists out. split; [exact Hout | exact Hall].
Qed.

(** Looking a section up in the result. *)
Lemma get_seiko_assets_lookup section_count assets section keywords :
  get_seiko_assets self section_count = Ok assets ->
  In (section, keywords) SEIKO_WATCH_CATEGORIES ->
  exists images,
    Py.dict_find assets section = Some images
    /\ section_images_of self section_count section keywords images.
Proof.
  intros Hget Hin.
  destruct (get_seiko_assets_spec section_count) as (assets' & Hget' & Hall).
  rewrite Hget in Hget'. injection Hget' as <-.
  unfold SEIKO_WATCH_CATEGORIES in Hall, Hin.
  repeat match goal with
         | H : Forall2 _ (_ :: _) _ |- _ =>
             let e := fresh "entry" in
             let Hk := fresh "Hkey" in
             let Hi := fresh "Himgs" in
             inversion H as [| ? e ? ? [Hk Hi] ?]; subst; clear H;
             destruct e as [? ?]; simpl in Hk, Hi; subst
         | H : Forall2 _ [] _ |- _ => inversion H; subst; clear H
         end.
  simpl in Hin.
  repeat (destruct Hin as [Hin | Hin];
          [ injection Hin as <- <-; eexists; split; [vm_compute; reflexivity | assumption] |]).
  contradiction.
Qed.

Lemma get_seiko_assets_records section_count assets section images r :
  get_seiko_assets self section_count = Ok assets ->
  In (section, images) assets -> In r images ->
  exists keywords i,
    In (section, keywords) SEIKO_WATCH_CATEGORIES
    /\ 0 <= i < Z.min section_count (Py.len keywords)
    /\ section_image self section keywords i = Ok r.
Proof.
  intros Hget Hin Hr.
  destruct (get_seiko_assets_spec section_count) as (assets' & Hget' & Hall).
  rewrite Hget in Hget'. injection Hget' as <-.
  clear Hget. revert Hin.
  induction Hall as [| [s kw] [s' imgs] items out [Hk Himgs] _ IH]; intros Hin.
  - destruct Hin.
  - simpl in Hk, Himgs. subst s'. destruct Hin as [Heq | Hin].
    + injection Heq as <- <-. exists kw.
      unfold section_images_of in Himgs.
      assert (Hex : exists i, In i (Py.range (Z.min section_count (Py.len kw)))
                              /\ section_image self s kw i = Ok r).
      { clear - Himgs Hr. induction Himgs as [| i y idxs ys Hy _ IHf].
        - destruct Hr.
        - destruct Hr as [<- | Hr].
          + exists i. split; [now left | exact Hy].
          + destruct (IHf Hr) as (j & Hj & Hjr). exists j. split; [now right | exact Hjr]. }
      destruct Hex as (i & Hi & Hir). exists i.
      split; [now left |]. split; [now apply In_range | exact Hir].
    + destruct (IH Hin) as (keywords & i & Hin' & Hi & Hir).
      exists keywords, i. split; [now right |]. split; assumption.
Qed.

End TableFacts.

(** ** [get_product_image] and [get_hero_banner] *)

Lemma encodable_literal (s : pystr) :
  forallb Py.scalar_value s = true -> Py.encodable s.
Proof. apply encodable_forallb. Qed.

Lemma product_search_terms_two clean_name image_type :
  exists t0 t1 rest, product_search_terms clean_name image_type = t0 :: t1 :: rest.
Proof.
  unfold product_search_terms.
  destruct (Py.str_eqb image_type (py "main")); [eauto |].
  destruct (Py.str_eqb image_type (py "detail")); [eauto |].
  destruct (Py.str_eqb image_type (py "lifestyle")); eauto.
Qed.

Lemma product_search_terms_encodable clean_name image_type :
  Py.encodable clean_name ->
  Forall Py.encodable (product_search_terms clean_name image_type).
Proof.
  intros H. unfold product_search_terms.
  destruct (Py.str_eqb image_type (py "main"));
    [| destruct (Py.str_eqb image_type (py "detail"));
       [| destruct (Py.str_eqb image_type (py "lifestyle"))]];
    repeat constructor;
    try (apply encodable_app; split);
    try assumption;
    apply encodable_literal; reflexivity.
Qed.

Lemma product_search_terms_other clean_name image_type :
  image_type <> py "main" -> image_type <> py "detail" ->
  image_type <> py "lifestyle" ->
  product_search_terms clean_name image_type = [py "seiko+watch"; py "luxury+timepiece"].
Proof.
  intros Hm Hd Hl. unfold product_search_terms.
  destruct (Py.str_eqb image_type (py "main")) eqn:E1;
    [apply str_eqb_eq in E1; contradiction |].
  destruct (Py.str_eqb image_type (py "detail")) eqn:E2;
    [apply str_eqb_eq in E2; contradiction |].
  destruct (Py.str_eqb image_type (py "lifestyle")) eqn:E3;
    [apply str_eqb_eq in E3; contradiction |].
  reflexivity.
Qed.

Lemma hero_search_term_cases collection :
  In (Py.dict_get hero_search_terms collection (py "seiko+watch+luxury"))
     [py "seiko+luxury+watch+collection"; py "seiko+prospex+sport+watch";
      py "seiko+presage+dress+watch"; py "seiko+astron+solar+watch";
      py "seiko+watch+luxury"].
Proof.
  unfold Py.dict_get, hero_search_terms. cbn [Py.dict_find].
  destruct (Py.str_eqb (py "luxury") collection); [simpl; tauto |].
  destruct (Py.str_eqb (py "sport") collection); [simpl; tauto |].
  destruct (Py.str_eqb (py "dress") collection); [simpl; tauto |].
  destruct (Py.str_eqb (py "solar") collection); simpl; tauto.
Qed.

Lemma hero_search_term_unknown collection :
  collection <> py "luxury" -> collection <> py "sport" ->
  collection <> py "dress" -> collection <> py "solar" ->
  Py.dict_get hero_search_terms collection (py "seiko+watch+luxury")
  = py "seiko+watch+luxury".
Proof.
  intros H1 H2 H3 H4.
  unfold Py.dict_get, hero_search_terms. cbn [Py.dict_find].
  destruct (Py.str_eqb (py "luxury") collection) eqn:E1;
    [apply str_eqb_eq in E1; congruence |].
  destruct (Py.str_eqb (py "sport") collection) eqn:E2;
    [apply str_eqb_eq in E2; congruence |].
  destruct (Py.str_eqb (py "dress") collection) eqn:E3;
    [apply str_eqb_eq in E3; congruence |].
  destruct (Py.str_eqb (py "solar") collection) eqn:E4;
    [apply str_eqb_eq in E4; congruence |].
  reflexivity.
Qed.

Lemma hero_search_term_quote collection :
  exists q,
    Urllib.quote (Py.dict_get hero_search_terms collection (py "seiko+watch+luxury"))
    = Ok q.
Proof.
  pose proof (hero_search_term_cases collection) as H. simpl in H.
  decompose [or] H; try contradiction;
    match goal with E : _ = _ |- _ => rewrite <- E end;
    eexists; vm_compute; reflexivity.
Qed.

Section MethodFacts.

Context {U : UnicodeData}.
Variable self : SeikoAssetManager.

Lemma clean_name_encodable product_name :
  Py.encodable product_name -> Py.encodable (clean_name_of product_name).
Proof.
  intros H. apply encodable_replace1; [reflexivity |].
  now apply str_lower_encodable.
Qed.

Lemma get_product_image_inv product_name image_type r :
  get_product_image self product_name image_type = Ok r ->
  exists seed t0 t1 rest q0 q1,
    seed_of (clean_name_of product_name ++ py "_" ++ image_type) = Ok seed
    /\ product_search_terms (clean_name_of product_name) image_type = t0 :: t1 :: rest
    /\ Urllib.quote t0 = Ok q0
    /\ Urllib.quote t1 = Ok q1
    /\ r = tiered_record self (py "/800x800/?") (py "/800/800?random=") q0 q1 seed
             (product_name ++ py " - Professional watch photography") product_name.
Proof.
  unfold get_product_image. fold (clean_name_of product_name). intros H.
  apply bind_Ok_inv in H as (seed & Hseed & H).
  destruct (product_search_terms_two (clean_name_of product_name) image_type)
    as (t0 & t1 & rest & Eterms).
  rewrite Eterms in H.
  apply bind_Ok_inv in H as (t0' & Ht0 & H). injection Ht0 as <-.
  apply bind_Ok_inv in H as (q0 & Hq0 & H).
  apply bind_Ok_inv in H as (t1' & Ht1 & H). injection Ht1 as <-.
  apply bind_Ok_inv in H as (q1 & Hq1 & H).
  injection H as <-.
  exists seed, t0, t1, rest, q0, q1. repeat split; assumption.
Qed.

Lemma get_product_image_total product_name image_type :
  Py.encodable product_name -> Py.encodable image_type ->
  exists r, get_product_image self product_name image_type = Ok r.
Proof.
  intros Hn Ht. apply clean_name_encodable in Hn.
  unfold get_product_image. fold (clean_name_of product_name).
  destruct (seed_of_ok (clean_name_of product_name ++ py "_" ++ image_type))
    as (seed & -> & _).
  { apply encodable_app. split; [exact Hn |].
    apply encodable_app. split; [apply encodable_literal; reflexivity | exact Ht]. }
  cbn [bind].
  pose proof (product_search_terms_encodable _ image_type Hn) as Henc.
  destruct (product_search_terms_two (clean_name_of product_name) image_type)
    as (t0 & t1 & rest & Eterms).
  rewrite Eterms in *.
  inversion Henc as [| ? ? H0 Henc']; subst.
  inversion Henc' as [| ? ? H1 _]; subst.
  destruct (quote_ok t0 H0) as [q0 Hq0]. destruct (quote_ok t1 H1) as [q1 Hq1].
  change (Py.getitem (t0 :: t1 :: rest) 0) with (Ok t0).
  change (Py.getitem (t0 :: t1 :: rest) 1) with (Ok t1).
  cbn [bind]. rewrite Hq0. cbn [bind]. rewrite Hq1. cbn [bind]. eauto.
Qed.

Lemma get_hero_banner_inv collection r :
  get_hero_banner self collection = Ok r ->
  exists seed q,
    seed_of (py "hero_" ++ collection) = Ok seed
    /\ Urllib.quote (Py.dict_get hero_search_terms collection (py "seiko+watch+luxury"))
       = Ok q
    /\ r = tiered_record self (py "/1920x600/?") (py "/1920/600?random=")
             q (py "luxury+timepiece") seed
             (py "Seiko " ++ str_title collection ++ py " Collection - Premium timepieces")
             (py "Seiko " ++ str_title collection ++ py " Collection").
Proof.
  unfold get_hero_banner. intros H.
  apply bind_Ok_inv in H as (seed & Hseed & H).
  apply bind_Ok_inv in H as (q & Hq & H).
  injection H as <-.
  exists seed, q. repeat split; assumption.
Qed.

Lemma hero_key_encodable collection :
  Py.encodable (py "hero_" ++ collection) <-> Py.encodable collection.
Proof.
  rewrite encodable_app. split; [tauto |].
  intros H. split; [apply encodable_literal; reflexivity | exact H].
Qed.

Lemma get_hero_banner_total collection :
  Py.encodable collection -> exists r, get_hero_banner self collection = Ok r.
Proof.
  intros H. unfold get_hero_banner.
  destruct (seed_of_ok (py "hero_" ++ collection)) as (seed & -> & _);
    [now apply hero_key_encodable |].
  cbn [bind].
  destruct (hero_search_term_quote collection) as [q ->].
  cbn [bind]. eauto.
Qed.

Lemma get_hero_banner_raise collection :
  ~ Py.encodable collection ->
  get_hero_banner self collection = Raise UnicodeEncodeError.
Proof.
  intros H. unfold get_hero_banner.
  rewrite seed_of_raise; [reflexivity |].
  intros He. apply H. now apply hero_key_encodable.
Qed.

End MethodFacts.

(** ** Properties of the resolver *)

Lemma init_inv (mkdir : pystr -> result unit) (m : SeikoAssetManager) :
  __init__ mkdir = Ok m -> m = asset_manager.
Proof.
  unfold __init__. intros H.
  apply bind_Ok_inv in H as (u & _ & H). now injection H as <-.
Qed.

Lemma section_record_fields {U : UnicodeData} self section keywords i r :
  section_record self section keywords i r -> has_all_fields r.
Proof.
  intros (kw & fbs & fb & seed & qk & qf & _ & _ & _ & _ & _ & _ & ->).
  apply tiered_record_fields.
Qed.

Lemma section_record_seeded {U : UnicodeData} self section keywords i r :
  section_record self section keywords i r ->
  exists seed,
    seed_of (py "seiko_" ++ section ++ py "_" ++ Py.str_of_int i) = Ok seed
    /\ seeded_by self (py "/1200x800/?") (py "/1200/800?random=") seed r.
Proof.
  intros (kw & fbs & fb & seed & qk & qf & _ & _ & _ & Hseed & _ & _ & ->).
  exists seed. split; [exact Hseed | apply tiered_record_seeded_by].
Qed.

(** C1 (amended).  On every input whose strings UTF-8 can encode (no lone
    surrogate code point) and for every integer count, [get_seiko_assets],
    [get_product_image] and [get_hero_banner] return, and every record they
    produce holds the five keys primary, secondary, fallback, alt, title. *)
Theorem construction_returns_full_records {U : UnicodeData}
    (self : SeikoAssetManager) (section_count : Z)
    (product_name image_type collection : pystr) :
  Py.encodable product_name -> Py.encodable image_type -> Py.encodable collection ->
  (exists assets,
      get_seiko_assets self section_count = Ok assets
      /\ forall section images r,
           In (section, images) assets -> In r images -> has_all_fields r)
  /\ (exists r, get_product_image self product_name image_type = Ok r
                /\ has_all_fields r)
  /\ (exists r, get_hero_banner self collection = Ok r /\ has_all_fields r).
Proof.
  intros Hn Ht Hc. repeat split.
  - destruct (get_seiko_assets_spec self section_count) as (assets & Hget & _).
    exists assets. split; [exact Hget |].
    intros section images r Hin Hr.
    destruct (get_seiko_assets_records self _ _ _ _ _ Hget Hin Hr)
      as (keywords & i & _ & _ & Himg).
    eapply section_record_fields, section_image_inv, Himg.
  - destruct (get_product_image_total self _ _ Hn Ht) as [r Hr].
    exists r. split; [exact Hr |].
    apply get_product_image_inv in Hr
      as (seed & t0 & t1 & rest & q0 & q1 & _ & _ & _ & _ & ->).
    apply tiered_record_fields.
  - destruct (get_hero_banner_total self _ Hc) as [r Hr].
    exists r. split; [exact Hr |].
    apply get_hero_banner_inv in Hr as (seed & q & _ & _ & ->).
    apply tiered_record_fields.
Qed.

Lemma construction_returns_full_records_witness :
  (exists assets,
      get_seiko_assets (U := ascii_case) asset_manager 8 = Ok assets
      /\ forall section images r,
           In (section, images) assets -> In r images -> has_all_fields r)
  /\ (exists r, get_product_image (U := ascii_case) asset_manager
                  (py "Seiko 5 Sports") (py "main") = Ok r
                /\ has_all_fields r)
  /\ (exists r, get_hero_banner (U := ascii_case) asset_manager (py "luxury") = Ok r
                /\ has_all_fields r).
Proof.
  apply (construction_returns_full_records (U := ascii_case) asset_manager 8
           (py "Seiko 5 Sports") (py "main") (py "luxury"));
    apply encodable_forallb; reflexivity.
Defined.

(** C1 (as stated) fails: a collection key, or an image type, that is a lone
    surrogate makes [str.encode] raise [UnicodeEncodeError]. *)
Lemma lone_surrogate_raises :
  get_hero_banner (U := ascii_case) asset_manager [0xD800]
  = Raise UnicodeEncodeError
  /\ get_product_image (U := ascii_case) asset_manager (py "Seiko 5 Sports") [0xD800]
     = Raise UnicodeEncodeError.
Proof. split; vm_compute; reflexivity. Qed.

(** C2.  Two calls of [get_product_image] with the same arguments, on the
    managers of any two process runs, give the same record, seed-derived
    query parameters included; for ["Seiko 5 Sports"], ["main"] it is the
    record with seed 6335 in all three URLs. *)
Theorem get_product_image_deterministic {U : UnicodeData}
    (mkdir1 mkdir2 : pystr -> result unit) (m1 m2 : SeikoAssetManager)
    (product_name image_type : pystr) :
  __init__ mkdir1 = Ok m1 -> __init__ mkdir2 = Ok m2 ->
  get_product_image m1 product_name image_type
  = get_product_image m2 product_name image_type
  /\ get_product_image m1 (py "Seiko 5 Sports") (py "main")
     = get_product_image m2 (py "Seiko 5 Sports") (py "main")
  /\ get_product_image m2 (py "Seiko 5 Sports") (py "main")
     = Ok [ (py "primary",
             py "https://source.unsplash.com/800x800/?seiko%2Bseiko%2B5%2Bsports&sig=6335");
            (py "secondary",
             py "https://source.unsplash.com/800x800/?seiko%2B5%2Bsports%2Bwatch&sig=6335");
            (py "fallback", py "https://picsum.photos/800/800?random=6335");
            (py "alt", py "Seiko 5 Sports - Professional watch photography");
            (py "title", py "Seiko 5 Sports") ].
Proof.
  intros H1 H2. apply init_inv in H1, H2. subst m1 m2.
  split; [reflexivity |]. split; [reflexivity |].
  unfold get_product_image.
  rewrite str_lower_ascii by reflexivity.
  vm_compute. reflexivity.
Qed.

Lemma get_product_image_deterministic_witness :
  get_product_image (U := ascii_case) asset_manager (py "Seiko 5 Sports") (py "detail")
  = get_product_image (U := ascii_case) asset_manager (py "Seiko 5 Sports") (py "detail").
Proof.
  apply (get_product_image_deterministic (U := ascii_case)
           (fun _ => Ok tt) (fun _ => Ok tt) asset_manager asset_manager
           (py "Seiko 5 Sports") (py "detail")); reflexivity.
Defined.

(** C3.  For a positive count and every section, the section's images are
    [min(section_count, len(keywords))] records; the record at index [i] is
    built from [keywords[i % len(keywords)]] and
    [fallbacks[i % len(fallbacks)]]; a count of 20 gives 6 records. *)
Theorem section_images_count_and_keywords {U : UnicodeData}
    (self : SeikoAssetManager) (section_count : Z)
    (section : pystr) (keywords : list pystr) :
  0 < section_count ->
  In (section, keywords) SEIKO_WATCH_CATEGORIES ->
  exists assets images,
    get_seiko_assets self section_count = Ok assets
    /\ Py.dict_find assets section = Some images
    /\ Py.len images = Z.min section_count (Py.len keywords)
    /\ (section_count = 20 -> Py.len keywords = 6 /\ Py.len images = 6)
    /\ forall i, 0 <= i < Py.len images ->
         exists r, Py.getitem images i = Ok r
                   /\ section_record self section keywords i r.
Proof.
  intros Hpos Hin.
  destruct (get_seiko_assets_spec self section_count) as (assets & Hget & _).
  destruct (get_seiko_assets_lookup self _ _ _ _ Hget Hin) as (images & Hfind & Himgs).
  exists assets, images.
  pose proof (every_section_has_six_keywords _ _ Hin) as Hsix.
  unfold section_images_of in Himgs.
  assert (Hlen : Py.len images = Z.min section_count (Py.len keywords)).
  { unfold Py.len at 1. rewrite <- (Forall2_length Himgs), range_length. lia. }
  split; [exact Hget |]. split; [exact Hfind |]. split; [exact Hlen |].
  split; [intros ->; split; [exact Hsix | lia] |].
  intros i Hi.
  destruct (Forall2_nth_error _ _ _ Himgs (Z.to_nat i) i) as (r & Hr & Himg).
  - rewrite range_nth by lia. f_equal. lia.
  - exists r. split; [apply getitem_nth; [lia | exact Hr] |].
    now apply section_image_inv.
Qed.

Lemma section_images_count_and_keywords_witness :
  exists assets images,
    get_seiko_assets (U := ascii_case) asset_manager 20 = Ok assets
    /\ Py.dict_find assets (py "hero") = Some images
    /\ Py.len images = 6.
Proof.
  destruct (section_images_count_and_keywords (U := ascii_case) asset_manager 20
              (py "hero")
              [py "seiko+watch+luxury"; py "luxury+timepiece"; py "premium+watch";
               py "seiko+automatic"; py "watch+collection"; py "luxury+wristwatch"])
    as (assets & images & Hget & Hfind & _ & H20 & _).
  - lia.
  - simpl. left. reflexivity.
  - exists assets, images. split; [exact Hget |]. split; [exact Hfind |].
    exact (proj2 (H20 eq_refl)).
Defined.

(** C4.  The seed of a composite key lies in [0, 9999] and is the first four
    digest bytes of the key's UTF-8 encoding, read most significant byte
    first, modulo 10000 (no seed is derived exactly when the key cannot be
    encoded); the three methods seed their records with the keys
    [seiko_{section}_{i}], [{clean_name}_{image_type}] and
    [hero_{collection}]. *)
Theorem seed_is_md5_prefix_mod_10000 {U : UnicodeData} (self : SeikoAssetManager) :
  (forall key,
      match seed_of key with
      | Ok seed =>
          0 <= seed <= 9999
          /\ exists bs, Py.encode key = Ok bs
                        /\ length (MD5.digest bs) = 16%nat
                        /\ seed = be_uint (firstn 4 (MD5.digest bs)) mod 10000
      | Raise e => e = UnicodeEncodeError /\ ~ Py.encodable key
      end)
  /\ (forall section keywords i r,
        section_image self section keywords i = Ok r ->
        exists seed,
          seed_of (py "seiko_" ++ section ++ py "_" ++ Py.str_of_int i) = Ok seed
          /\ seeded_by self (py "/1200x800/?") (py "/1200/800?random=") seed r)
  /\ (forall product_name image_type r,
        get_product_image self product_name image_type = Ok r ->
        exists seed,
          seed_of (Py.replace1 (str_lower product_name) 32 43 ++ py "_" ++ image_type)
          = Ok seed
          /\ seeded_by self (py "/800x800/?") (py "/800/800?random=") seed r)
  /\ (forall collection r,
        get_hero_banner self collection = Ok r ->
        exists seed,
          seed_of (py "hero_" ++ collection) = Ok seed
          /\ seeded_by self (py "/1920x600/?") (py "/1920/600?random=") seed r).
Proof.
  split; [intros key | split; [| split]].
  - destruct (encodable_dec key) as [He | He].
    + destruct (encode_ok key He) as [bs Hbs].
      rewrite (seed_of_encoded key bs Hbs). split.
      * pose proof (Z.mod_pos_bound (be_uint (firstn 4 (MD5.digest bs))) 10000). lia.
      * exists bs. split; [exact Hbs |]. split; [apply digest_length | reflexivity].
    + rewrite (seed_of_raise key He). split; [reflexivity | exact He].
  - intros section keywords i r H.
    now apply section_record_seeded with (keywords := keywords), section_image_inv.
  - intros product_name image_type r H.
    apply get_product_image_inv in H
      as (seed & t0 & t1 & rest & q0 & q1 & Hseed & _ & _ & _ & ->).
    exists seed. split; [exact Hseed | apply tiered_record_seeded_by].
  - intros collection r H.
    apply get_hero_banner_inv in H as (seed & q & Hseed & _ & ->).
    exists seed. split; [exact Hseed | apply tiered_record_seeded_by].
Qed.

Lemma seed_is_md5_prefix_mod_10000_witness :
  exists r seed,
    get_hero_banner (U := ascii_case) asset_manager (py "luxury") = Ok r
    /\ seed_of (py "hero_luxury") = Ok seed
    /\ seeded_by asset_manager (py "/1920x600/?") (py "/1920/600?random=") seed r.
Proof.
  destruct (get_hero_banner (U := ascii_case) asset_manager (py "luxury"))
    as [r |] eqn:Hr; [| vm_compute in Hr; discriminate Hr].
  destruct (proj2 (proj2 (proj2
              (seed_is_md5_prefix_mod_10000 (U := ascii_case) asset_manager)))
              (py "luxury") r Hr) as (seed & Hseed & Hs).
  exists r, seed. split; [reflexivity |]. split; [exact Hseed | exact Hs].
Defined.

(** Regression vectors of the seed formula. *)
Example seed_vectors :
  seed_of (py "seiko+prospex+solar+diver_detail") = Ok 5448
  /\ seed_of (py "seiko+5+sports_main") = Ok 6335
  /\ seed_of (py "hero_luxury") = Ok 282
  /\ seed_of (py "hero_unknown-collection") = Ok 8355
  /\ seed_of (py "seiko_hero_0") = Ok 9020
  /\ seed_of (py "grand+seiko+sbga211_panorama") = Ok 6017.
Proof. repeat split; vm_compute; reflexivity. Qed.

(** C5.  [get_product_image("Seiko Prospex Solar Diver", "detail")]: the
    primary URL holds the escaped form of the term
    [seiko+prospex+solar+diver+detail], which is the lower-cased name with
    [+] for each space, followed by [+detail]. *)
Theorem solar_diver_detail_primary {U : UnicodeData} (self : SeikoAssetManager) :
  exists r q rest,
    get_product_image self (py "Seiko Prospex Solar Diver") (py "detail") = Ok r
    /\ Py.replace1 (str_lower (py "Seiko Prospex Solar Diver")) 32 43
       = py "seiko+prospex+solar+diver"
    /\ product_search_terms (py "seiko+prospex+solar+diver") (py "detail")
       = (py "seiko+prospex+solar+diver" ++ py "+detail") :: rest
    /\ py "seiko+prospex+solar+diver" ++ py "+detail"
       = py "seiko+prospex+solar+diver+detail"
    /\ Urllib.quote (py "seiko+prospex+solar+diver+detail") = Ok q
    /\ q = py "seiko%2Bprospex%2Bsolar%2Bdiver%2Bdetail"
    /\ Py.dict_find r (py "primary")
       = Some (base_unsplash_url self ++ py "/800x800/?" ++ q ++ py "&sig=5448").
Proof.
  assert (Hlow : str_lower (py "Seiko Prospex Solar Diver")
                 = py "seiko prospex solar diver")
    by (rewrite str_lower_ascii by reflexivity; reflexivity).
  destruct (get_product_image self (py "Seiko Prospex Solar Diver") (py "detail"))
    as [r |] eqn:Hr.
  - exists r. do 2 eexists.
    split; [reflexivity |].
    split; [rewrite Hlow; reflexivity |].
    split; [reflexivity |].
    split; [reflexivity |].
    split; [vm_compute; reflexivity |].
    split; [reflexivity |].
    unfold get_product_image in Hr. rewrite Hlow in Hr.
    vm_compute in Hr. injection Hr as <-. vm_compute. reflexivity.
  - exfalso. unfold get_product_image in Hr. rewrite Hlow in Hr.
    vm_compute in Hr. discriminate Hr.
Qed.

(** C6.  Whatever the collection key, the secondary URL of
    [get_hero_banner] searches for the constant [luxury+timepiece]; the
    primary URL searches for the phrase looked up under the key. *)
Theorem hero_secondary_is_generic {U : UnicodeData} (self : SeikoAssetManager)
    (collection : pystr) :
  match get_hero_banner self collection with
  | Ok r =>
      exists seed q,
        seed_of (py "hero_" ++ collection) = Ok seed
        /\ Urllib.quote
             (Py.dict_get hero_search_terms collection (py "seiko+watch+luxury"))
           = Ok q
        /\ Py.dict_find r (py "primary")
           = Some (base_unsplash_url self ++ py "/1920x600/?" ++ q
                     ++ py "&sig=" ++ Py.str_of_int seed)
        /\ Py.dict_find r (py "secondary")
           = Some (base_unsplash_url self ++ py "/1920x600/?" ++ py "luxury+timepiece"
                     ++ py "&sig=" ++ Py.str_of_int seed)
  | Raise e => e = UnicodeEncodeError /\ ~ Py.encodable collection
  end.
Proof.
  destruct (encodable_dec collection) as [He | He].
  - destruct (get_hero_banner_total self collection He) as [r Hr].
    rewrite Hr.
    apply get_hero_banner_inv in Hr as (seed & q & Hseed & Hq & ->).
    exists seed, q. repeat split; assumption.
  - rewrite (get_hero_banner_raise self collection He). split; [reflexivity | exact He].
Qed.

(** Another key: the primary phrase moves with it, the secondary one does
    not. *)
Example hero_sport :
  get_hero_banner (U := ascii_case) asset_manager (py "sport")
  = Ok [ (py "primary",
          py "https://source.unsplash.com/1920x600/?seiko%2Bprospex%2Bsport%2Bwatch&sig=3692");
         (py "secondary",
          py "https://source.unsplash.com/1920x600/?luxury+timepiece&sig=3692");
         (py "fallback", py "https://picsum.photos/1920/600?random=3692");
         (py "alt", py "Seiko Sport Collection - Premium timepieces");
         (py "title", py "Seiko Sport Collection") ].
Proof. vm_compute. reflexivity. Qed.

(** C7 (amended).  On encodable inputs, an image type other than [main],
    [detail], [lifestyle] makes [get_product_image] return a record whose
    two search terms are [seiko+watch] and [luxury+timepiece], and a
    collection key other than [luxury], [sport], [dress], [solar] makes
    [get_hero_banner] return a record whose primary term is
    [seiko+watch+luxury]. *)
Theorem unknown_keys_fall_back {U : UnicodeData} (self : SeikoAssetManager)
    (product_name image_type collection : pystr) :
  Py.encodable product_name -> Py.encodable image_type ->
  image_type <> py "main" -> image_type <> py "detail" ->
  image_type <> py "lifestyle" ->
  Py.encodable collection ->
  collection <> py "luxury" -> collection <> py "sport" ->
  collection <> py "dress" -> collection <> py "solar" ->
  (exists r seed,
      get_product_image self product_name image_type = Ok r
      /\ product_search_terms (Py.replace1 (str_lower product_name) 32 43) image_type
         = [py "seiko+watch"; py "luxury+timepiece"]
      /\ Urllib.quote (py "seiko+watch") = Ok (py "seiko%2Bwatch")
      /\ Urllib.quote (py "luxury+timepiece") = Ok (py "luxury%2Btimepiece")
      /\ Py.dict_find r (py "primary")
         = Some (base_unsplash_url self ++ py "/800x800/?" ++ py "seiko%2Bwatch"
                   ++ py "&sig=" ++ Py.str_of_int seed)
      /\ Py.dict_find r (py "secondary")
         = Some (base_unsplash_url self ++ py "/800x800/?" ++ py "luxury%2Btimepiece"
                   ++ py "&sig=" ++ Py.str_of_int seed))
  /\ (exists r seed,
        get_hero_banner self collection = Ok r
        /\ Py.dict_get hero_search_terms collection (py "seiko+watch+luxury")
           = py "seiko+watch+luxury"
        /\ Urllib.quote (py "seiko+watch+luxury") = Ok (py "seiko%2Bwatch%2Bluxury")
        /\ Py.dict_find r (py "primary")
           = Some (base_unsplash_url self ++ py "/1920x600/?"
                     ++ py "seiko%2Bwatch%2Bluxury"
                     ++ py "&sig=" ++ Py.str_of_int seed)).
Proof.
  intros Hn Ht Hm Hd Hl Hc H1 H2 H3 H4.
  assert (Q0 : Urllib.quote (py "seiko+watch") = Ok (py "seiko%2Bwatch"))
    by (vm_compute; reflexivity).
  assert (Q1 : Urllib.quote (py "luxury+timepiece") = Ok (py "luxury%2Btimepiece"))
    by (vm_compute; reflexivity).
  assert (Q2 : Urllib.quote (py "seiko+watch+luxury") = Ok (py "seiko%2Bwatch%2Bluxury"))
    by (vm_compute; reflexivity).
  split.
  - destruct (get_product_image_total self _ _ Hn Ht) as [r Hr].
    pose proof Hr as Hinv.
    apply get_product_image_inv in Hinv
      as (seed & t0 & t1 & rest & q0 & q1 & _ & Hterms & Hq0 & Hq1 & ->).
    unfold clean_name_of in Hterms.
    rewrite (product_search_terms_other _ _ Hm Hd Hl) in Hterms.
    injection Hterms as <- <- <-.
    rewrite Q0 in Hq0. rewrite Q1 in Hq1.
    injection Hq0 as <-. injection Hq1 as <-.
    eexists. exists seed. split; [exact Hr |].
    split; [now apply product_search_terms_other |].
    split; [exact Q0 |]. split; [exact Q1 |].
    split; reflexivity.
  - destruct (get_hero_banner_total self _ Hc) as [r Hr].
    pose proof Hr as Hinv.
    apply get_hero_banner_inv in Hinv as (seed & q & _ & Hq & ->).
    rewrite (hero_search_term_unknown _ H1 H2 H3 H4), Q2 in Hq.
    injection Hq as <-.
    eexists. exists seed. split; [exact Hr |].
    split; [now apply hero_search_term_unknown |].
    split; [exact Q2 | reflexivity].
Qed.

Lemma unknown_keys_fall_back_witness :
  (exists r seed,
      get_product_image (U := ascii_case) asset_manager
        (py "Grand Seiko SBGA211") (py "panorama") = Ok r
      /\ Py.dict_find r (py "primary")
         = Some (py "https://source.unsplash.com" ++ py "/800x800/?"
                   ++ py "seiko%2Bwatch" ++ py "&sig=" ++ Py.str_of_int seed)
      /\ Py.dict_find r (py "secondary")
         = Some (py "https://source.unsplash.com" ++ py "/800x800/?"
                   ++ py "luxury%2Btimepiece" ++ py "&sig=" ++ Py.str_of_int seed))
  /\ (exists r seed,
        get_hero_banner (U := ascii_case) asset_manager (py "unknown-collection") = Ok r
        /\ Py.dict_find r (py "primary")
           = Some (py "https://source.unsplash.com" ++ py "/1920x600/?"
                     ++ py "seiko%2Bwatch%2Bluxury"
                     ++ py "&sig=" ++ Py.str_of_int seed)).
Proof.
  destruct (unknown_keys_fall_back (U := ascii_case) asset_manager
              (py "Grand Seiko SBGA211") (py "panorama") (py "unknown-collection"))
    as [(r & seed & Hr & _ & _ & _ & Hp & Hs) (r' & seed' & Hr' & _ & _ & Hp')];
    try (apply encodable_forallb; reflexivity);
    try (intros H; vm_compute in H; discriminate H).
  split.
  - exists r, seed. split; [exact Hr |]. split; [exact Hp | exact Hs].
  - exists r', seed'. split; [exact Hr' | exact Hp'].
Defined.

(** C7 (as stated) fails: with the unknown image type [panorama] and a
    product name that holds a lone surrogate, and with an unknown collection
    key that holds one, the methods raise instead of returning. *)
Lemma unknown_key_with_lone_surrogate_raises :
  get_product_image (U := ascii_case) asset_manager
    (py "Grand Seiko " ++ [0xD800]) (py "panorama")
  = Raise UnicodeEncodeError
  /\ get_hero_banner (U := ascii_case) asset_manager (py "unknown-" ++ [0xDC00])
     = Raise UnicodeEncodeError.
Proof. split; vm_compute; reflexivity. Qed.

(** C8.  [validate_image_url] always returns a boolean, and the boolean is
    [True] exactly when the HEAD request with timeout 5 returned a response
    whose status code is 200. *)
Theorem validate_image_url_contract
    (requests_head : pystr -> Z -> result Response) (url : pystr) :
  exists b,
    validate_image_url requests_head url = Ok b
    /\ (b = true <->
        exists response,
          requests_head url 5 = Ok response /\ status_code response = 200).
Proof.
  unfold validate_image_url.
  destruct (requests_head url 5) as [response | e]; cbn [bind try_except].
  - exists (status_code response =? 200). split; [reflexivity |]. split.
    + intros H. exists response. split; [reflexivity | now apply Z.eqb_eq].
    + intros (response' & Heq & H). injection Heq as <-. now apply Z.eqb_eq.
  - exists false. split; [reflexivity |]. split; [discriminate |].
    intros (response & Heq & _). discriminate Heq.
Qed.

Example probe_outcomes :
  validate_image_url (fun _ _ => Ok {| status_code := 200 |}) (py "https://picsum.photos/1") = Ok true
  /\ validate_image_url (fun _ _ => Ok {| status_code := 404 |}) (py "https://picsum.photos/1") = Ok false
  /\ validate_image_url (fun _ _ => Ok {| status_code := 204 |}) (py "https://picsum.photos/1") = Ok false
  /\ validate_image_url (fun _ _ => Raise ReadTimeout) (py "https://picsum.photos/1") = Ok false
  /\ validate_image_url (fun _ _ => Raise ConnectionError) (py "https://picsum.photos/1") = Ok false
  /\ validate_image_url (fun _ _ => Raise KeyboardInterrupt) (py "https://picsum.photos/1") = Ok false.
Proof. repeat split. Qed.

(** C9.  In every record the three methods produce, the primary, secondary
    and fallback URLs carry one and the same seed. *)
Theorem record_urls_share_one_seed {U : UnicodeData} (self : SeikoAssetManager) :
  (forall section_count assets section images r,
      get_seiko_assets self section_count = Ok assets ->
      In (section, images) assets -> In r images ->
      shares_seed self (py "/1200x800/?") (py "/1200/800?random=") r)
  /\ (forall product_name image_type r,
        get_product_image self product_name image_type = Ok r ->
        shares_seed self (py "/800x800/?") (py "/800/800?random=") r)
  /\ (forall collection r,
        get_hero_banner self collection = Ok r ->
        shares_seed self (py "/1920x600/?") (py "/1920/600?random=") r).
Proof.
  split; [| split].
  - intros section_count assets section images r Hget Hin Hr.
    destruct (get_seiko_assets_records self _ _ _ _ _ Hget Hin Hr)
      as (keywords & i & _ & _ & Himg).
    apply section_image_inv, section_record_seeded in Himg as (seed & Hseed & Hs).
    exists seed. split; [now apply seed_of_inv in Hseed | exact Hs].
  - intros product_name image_type r H.
    apply get_product_image_inv in H
      as (seed & t0 & t1 & rest & q0 & q1 & Hseed & _ & _ & _ & ->).
    exists seed. split; [now apply seed_of_inv in Hseed | apply tiered_record_seeded_by].
  - intros collection r H.
    apply get_hero_banner_inv in H as (seed & q & Hseed & _ & ->).
    exists seed. split; [now apply seed_of_inv in Hseed | apply tiered_record_seeded_by].
Qed.

Lemma record_urls_share_one_seed_witness :
  exists r,
    get_hero_banner (U := ascii_case) asset_manager (py "solar") = Ok r
    /\ shares_seed asset_manager (py "/1920x600/?") (py "/1920/600?random=") r.
Proof.
  destruct (get_hero_banner (U := ascii_case) asset_manager (py "solar"))
    as [r |] eqn:Hr; [| vm_compute in Hr; discriminate Hr].
  exists r. split; [reflexivity |].
  exact (proj2 (proj2 (record_urls_share_one_seed (U := ascii_case) asset_manager))
           (py "solar") r Hr).
Defined.

(** C10.  For a count of zero or less, [get_seiko_assets] returns the six
    section names, in table order, each with an empty list. *)
Theorem nonpositive_count_gives_empty_sections {U : UnicodeData}
    (self : SeikoAssetManager) (section_count : Z) :
  section_count <= 0 ->
  get_seiko_assets self section_count
  = Ok [ (py "hero", []); (py "products", []); (py "lifestyle", []);
         (py "collections", []); (py "craftsmanship", []); (py "trust", []) ].
Proof.
  intros H. unfold get_seiko_assets, SEIKO_WATCH_CATEGORIES.
  cbn [for_sections].
  rewrite !range_nonpositive by (unfold Py.len; cbn [length]; lia).
  reflexivity.
Qed.

Lemma nonpositive_count_gives_empty_sections_witness :
  get_seiko_assets (U := ascii_case) asset_manager (-3)
  = Ok [ (py "hero", []); (py "products", []); (py "lifestyle", []);
         (py "collections", []); (py "craftsmanship", []); (py "trust", []) ].
Proof.
  apply (nonpositive_count_gives_empty_sections (U := ascii_case) asset_manager (-3)).
  lia.
Defined.

(** ** Further properties of [get_seiko_assets] *)

Lemma range_to_nat (a b : Z) : Z.to_nat a = Z.to_nat b -> Py.range a = Py.range b.
Proof. unfold Py.range. now intros ->. Qed.

Lemma firstn_seq_min (k start len : nat) :
  firstn k (seq start len) = seq start (Nat.min k len).
Proof.
  revert start len. induction k as [| k IH]; intros start [| len]; simpl;
    try reflexivity.
  f_equal. apply IH.
Qed.

Lemma firstn_range (k : nat) (n : Z) :
  firstn k (Py.range n) = Py.range (Z.min (Z.of_nat k) n).
Proof.
  unfold Py.range. rewrite firstn_map, firstn_seq_min. do 2 f_equal. lia.
Qed.

Lemma Forall2_firstn {A B : Type} (R : A -> B -> Prop) (k : nat)
    (xs : list A) (ys : list B) :
  Forall2 R xs ys -> Forall2 R (firstn k xs) (firstn k ys).
Proof.
  intros H. revert k. induction H as [| x y xs ys Hxy _ IH]; intros [| k]; simpl;
    constructor; auto.
Qed.

Lemma Forall2_functional {A B : Type} (R : A -> B -> Prop)
    (xs : list A) (ys ys' : list B) :
  (forall x y y', R x y -> R x y' -> y = y') ->
  Forall2 R xs ys -> Forall2 R xs ys' -> ys = ys'.
Proof.
  intros Hfun H. revert ys'. induction H as [| x y xs ys Hxy _ IH]; intros ys' H';
    inversion H'; subst; [reflexivity |].
  f_equal; [eapply Hfun; eassumption | now apply IH].
Qed.

Lemma for_sections_same_ranges {U : UnicodeData} (self : SeikoAssetManager)
    (c1 c2 : Z) (items : list (pystr * list pystr))
    (assets : Py.dict pystr (list AssetRecord)) :
  (forall section keywords,
      In (section, keywords) items ->
      Z.to_nat (Z.min c1 (Py.len keywords)) = Z.to_nat (Z.min c2 (Py.len keywords))) ->
  for_sections self c1 items assets = for_sections self c2 items assets.
Proof.
  revert assets. induction items as [| [section keywords] items IH]; intros assets H.
  - reflexivity.
  - cbn [for_sections].
    rewrite (range_to_nat _ _ (H section keywords (or_introl eq_refl))).
    destruct (mapM _ _) as [imgs |]; cbn [bind]; [| reflexivity].
    apply IH. intros s kw Hin. apply (H s kw). now right.
Qed.

(** X1.  [get_seiko_assets] sees its count only through its clamp to
    [0, 6]: any count of 6 or more (the default 8 included) gives the result
    of 6, any count of 0 or less the result of 0. *)
Theorem get_seiko_assets_clamps_count {U : UnicodeData} (self : SeikoAssetManager)
    (section_count : Z) :
  get_seiko_assets self section_count
  = get_seiko_assets self (Z.max 0 (Z.min section_count 6)).
Proof.
  unfold get_seiko_assets. apply for_sections_same_ranges.
  intros section keywords Hin.
  rewrite (every_section_has_six_keywords section keywords Hin). lia.
Qed.

(** X2.  Asking for more never changes what was already there: for
    [c1 <= c2] the images of a section at count [c1] are the first [c1]
    images of that section at count [c2]. *)
Theorem smaller_count_gives_prefix {U : UnicodeData} (self : SeikoAssetManager)
    (c1 c2 : Z) (section : pystr) (keywords : list pystr) :
  c1 <= c2 ->
  In (section, keywords) SEIKO_WATCH_CATEGORIES ->
  exists assets1 assets2 images1 images2,
    get_seiko_assets self c1 = Ok assets1
    /\ get_seiko_assets self c2 = Ok assets2
    /\ Py.dict_find assets1 section = Some images1
    /\ Py.dict_find assets2 section = Some images2
    /\ images1 = firstn (Z.to_nat c1) images2.
Proof.
  intros Hle Hin.
  destruct (get_seiko_assets_spec self c1) as (assets1 & Hget1 & _).
  destruct (get_seiko_assets_spec self c2) as (assets2 & Hget2 & _).
  destruct (get_seiko_assets_lookup self _ _ _ _ Hget1 Hin) as (images1 & Hf1 & H1).
  destruct (get_seiko_assets_lookup self _ _ _ _ Hget2 Hin) as (images2 & Hf2 & H2).
  exists assets1, assets2, images1, images2.
  repeat (split; [assumption |]).
  unfold section_images_of in H1, H2.
  apply (Forall2_firstn _ (Z.to_nat c1)) in H2.
  rewrite firstn_range in H2.
  rewrite (range_to_nat _ (Z.min c1 (Py.len keywords))) in H2 by lia.
  eapply Forall2_functional; [| exact H1 | exact H2].
  intros i r r' Hr Hr'. cbn beta in Hr, Hr'. congruence.
Qed.

Lemma smaller_count_gives_prefix_witness :
  exists assets1 assets2 images1 images2,
    get_seiko_assets (U := ascii_case) asset_manager 2 = Ok assets1
    /\ get_seiko_assets (U := ascii_case) asset_manager 8 = Ok assets2
    /\ Py.dict_find assets1 (py "trust") = Some images1
    /\ Py.dict_find assets2 (py "trust") = Some images2
    /\ images1 = firstn 2 images2.
Proof.
  apply (smaller_count_gives_prefix (U := ascii_case) asset_manager 2 8 (py "trust")
           [py "luxury+service"; py "watch+warranty"; py "premium+support";
            py "professional+consultation"; py "authorized+dealer";
            py "watch+expertise"]).
  - lia.
  - simpl. do 5 right. left. reflexivity.
Defined.

Lemma every_section_has_four_fallbacks section keywords :
  In (section, keywords) SEIKO_WATCH_CATEGORIES ->
  exists fallbacks,
    Py.dict_find FALLBACK_CATEGORIES section = Some fallbacks /\ Py.len fallbacks = 4.
Proof.
  unfold SEIKO_WATCH_CATEGORIES. simpl.
  intros H.
  repeat (destruct H as [H | H];
          [injection H as <- <-; eexists; split; vm_compute; reflexivity |]).
  contradiction.
Qed.

Lemma Forall2_nth_error_r {A B : Type} (R : A -> B -> Prop) (xs : list A) (ys : list B) :
  Forall2 R xs ys ->
  forall k y, nth_error ys k = Some y -> exists x, nth_error xs k = Some x /\ R x y.
Proof.
  induction 1 as [| x0 y0 xs ys H0 _ IH]; intros [| k] y Hk; simpl in *;
    try discriminate.
  - injection Hk as <-. eauto.
  - eauto.
Qed.

Lemma range_nth_inv (n : Z) (k : nat) (x : Z) :
  nth_error (Py.range n) k = Some x -> x = Z.of_nat k.
Proof.
  unfold Py.range. rewrite nth_error_map, nth_error_seq.
  destruct (Nat.ltb k (Z.to_nat n)); simpl; congruence.
Qed.

(** The record found at index [i] of a section of the result is the one the
    inner loop built at [i]. *)
Lemma get_seiko_assets_getitem {U : UnicodeData} (self : SeikoAssetManager)
    section_count assets section keywords images i r :
  In (section, keywords) SEIKO_WATCH_CATEGORIES ->
  get_seiko_assets self section_count = Ok assets ->
  Py.dict_find assets section = Some images ->
  0 <= i -> Py.getitem images i = Ok r ->
  section_record self section keywords i r.
Proof.
  intros Hin Hget Hfind Hi Hr.
  destruct (get_seiko_assets_lookup self _ _ _ _ Hget Hin) as (images' & Hf' & Himgs).
  rewrite Hfind in Hf'. injection Hf' as <-.
  apply getitem_nth in Hr; [| exact Hi].
  destruct (Forall2_nth_error_r _ _ _ Himgs _ _ Hr) as (idx & Hidx & Himg).
  apply range_nth_inv in Hidx. rewrite Z2Nat.id in Hidx by exact Hi. subst idx.
  now apply section_image_inv.
Qed.

(** X3.  The fallback list of a section has four entries, so within a
    section two records whose indices agree modulo 4 (0 and 4, 1 and 5) have
    the same secondary search term; only their seeds differ. *)
Theorem fallback_terms_repeat_every_four {U : UnicodeData} (self : SeikoAssetManager)
    (section_count : Z) (section : pystr) (keywords : list pystr)
    (assets : Py.dict pystr (list AssetRecord)) (images : list AssetRecord)
    (i j : Z) (r_i r_j : AssetRecord) :
  In (section, keywords) SEIKO_WATCH_CATEGORIES ->
  get_seiko_assets self section_count = Ok assets ->
  Py.dict_find assets section = Some images ->
  0 <= i -> 0 <= j -> i mod 4 = j mod 4 ->
  Py.getitem images i = Ok r_i -> Py.getitem images j = Ok r_j ->
  exists qf seed_i seed_j,
    Py.dict_find r_i (py "secondary")
    = Some (base_unsplash_url self ++ py "/1200x800/?" ++ qf
              ++ py "&sig=" ++ Py.str_of_int seed_i)
    /\ Py.dict_find r_j (py "secondary")
       = Some (base_unsplash_url self ++ py "/1200x800/?" ++ qf
                 ++ py "&sig=" ++ Py.str_of_int seed_j).
Proof.
  intros Hin Hget Hfind Hi Hj Hmod Hri Hrj.
  destruct (every_section_has_four_fallbacks _ _ Hin) as (fallbacks & Hfb & Hlen).
  pose proof (get_seiko_assets_getitem self _ _ _ _ _ _ _ Hin Hget Hfind Hi Hri) as Ri.
  pose proof (get_seiko_assets_getitem self _ _ _ _ _ _ _ Hin Hget Hfind Hj Hrj) as Rj.
  destruct Ri as (kw_i & fbs_i & fb_i & seed_i & qk_i & qf_i
                  & _ & Hfbs_i & Hfb_i & _ & _ & Hqf_i & ->).
  destruct Rj as (kw_j & fbs_j & fb_j & seed_j & qk_j & qf_j
                  & _ & Hfbs_j & Hfb_j & _ & _ & Hqf_j & ->).
  rewrite Hfb in Hfbs_i, Hfbs_j.
  injection Hfbs_i as <-. injection Hfbs_j as <-.
  rewrite Hlen in Hfb_i, Hfb_j. rewrite Hmod in Hfb_i.
  assert (fb_i = fb_j) by congruence. subst fb_j.
  assert (qf_i = qf_j) by congruence. subst qf_j.
  exists qf_i, seed_i, seed_j. split; reflexivity.
Qed.

Lemma dict_find_In {V : Type} (d : Py.dict pystr V) (k : pystr) (v : V) :
  Py.dict_find d k = Some v -> In (k, v) d.
Proof.
  induction d as [| [k' v'] d IH]; simpl; [discriminate |].
  destruct (Py.str_eqb k' k) eqn:E.
  - apply str_eqb_eq in E. intros H. injection H as <-. left. congruence.
  - intros H. right. now apply IH.
Qed.

(** The hero section at the default count, with its records at indices 0
    and 4. *)
Lemma hero_images_at_default_count :
  exists assets images r0 r4,
    get_seiko_assets (U := ascii_case) asset_manager 8 = Ok assets
    /\ Py.dict_find assets (py "hero") = Some images
    /\ Py.getitem images 0 = Ok r0
    /\ Py.getitem images 4 = Ok r4.
Proof.
  destruct (get_seiko_assets_spec (U := ascii_case) asset_manager 8)
    as (assets & Hget & _).
  destruct (get_seiko_assets_lookup (U := ascii_case) asset_manager 8 assets (py "hero")
              [py "seiko+watch+luxury"; py "luxury+timepiece"; py "premium+watch";
               py "seiko+automatic"; py "watch+collection"; py "luxury+wristwatch"]
              Hget (or_introl eq_refl)) as (images & Hfind & Himgs).
  destruct (Forall2_nth_error _ _ _ Himgs 0%nat 0 eq_refl) as (r0 & Hr0 & _).
  destruct (Forall2_nth_error _ _ _ Himgs 4%nat 4 eq_refl) as (r4 & Hr4 & _).
  exists assets, images, r0, r4.
  split; [exact Hget |]. split; [exact Hfind |].
  split; apply getitem_nth; (lia || assumption).
Qed.

Lemma fallback_terms_repeat_every_four_witness :
  exists assets images r0 r4 qf seed0 seed4,
    get_seiko_assets (U := ascii_case) asset_manager 8 = Ok assets
    /\ Py.dict_find assets (py "hero") = Some images
    /\ Py.getitem images 0 = Ok r0
    /\ Py.getitem images 4 = Ok r4
    /\ Py.dict_find r0 (py "secondary")
       = Some (py "https://source.unsplash.com" ++ py "/1200x800/?" ++ qf
                 ++ py "&sig=" ++ Py.str_of_int seed0)
    /\ Py.dict_find r4 (py "secondary")
       = Some (py "https://source.unsplash.com" ++ py "/1200x800/?" ++ qf
                 ++ py "&sig=" ++ Py.str_of_int seed4).
Proof.
  destruct hero_images_at_default_count as (assets & images & r0 & r4 & Hget & Hfind & H0 & H4).
  destruct (fallback_terms_repeat_every_four (U := ascii_case) asset_manager 8
              (py "hero")
              [py "seiko+watch+luxury"; py "luxury+timepiece"; py "premium+watch";
               py "seiko+automatic"; py "watch+collection"; py "luxury+wristwatch"]
              assets images 0 4 r0 r4 (or_introl eq_refl) Hget Hfind)
    as (qf & seed0 & seed4 & Hs0 & Hs4);
    [lia | lia | reflexivity | exact H0 | exact H4 |].
  exists assets, images, r0, r4, qf, seed0, seed4.
  repeat (split; [assumption |]). assumption.
Defined.

Lemma replace1_removes (s : pystr) (old new : Z) :
  old <> new -> ~ In old (Py.replace1 s old new).
Proof.
  intros Hne Hin. unfold Py.replace1 in Hin. apply in_map_iff in Hin as (c & Hc & _).
  destruct (Z.eqb_spec c old); congruence.
Qed.

(** X6.  The alt text of every record of [get_seiko_assets] is
    ["Professional Seiko "], the keyword, [" imagery"], and holds no [+]:
    the separators of the keyword have become spaces. *)
Theorem section_alt_text_has_no_plus {U : UnicodeData} (self : SeikoAssetManager)
    (section_count : Z) (assets : Py.dict pystr (list AssetRecord))
    (section : pystr) (images : list AssetRecord) (r : AssetRecord) :
  get_seiko_assets self section_count = Ok assets ->
  In (section, images) assets -> In r images ->
  exists text,
    Py.dict_find r (py "alt") = Some (py "Professional Seiko " ++ text ++ py " imagery")
    /\ ~ In 43 (py "Professional Seiko " ++ text ++ py " imagery").
Proof.
  intros Hget Hin Hr.
  destruct (get_seiko_assets_records self _ _ _ _ _ Hget Hin Hr)
    as (keywords & i & _ & _ & Himg).
  apply section_image_inv in Himg
    as (kw & fbs & fb & seed & qk & qf & _ & _ & _ & _ & _ & _ & ->).
  exists (Py.replace1 kw 43 32). split; [reflexivity |].
  rewrite !in_app_iff. intros [H | [H | H]].
  - vm_compute in H. repeat (destruct H as [H | H]; [discriminate H |]). exact H.
  - revert H. apply replace1_removes. discriminate.
  - vm_compute in H. repeat (destruct H as [H | H]; [discriminate H |]). exact H.
Qed.

Lemma section_alt_text_has_no_plus_witness :
  exists assets images r text,
    get_seiko_assets (U := ascii_case) asset_manager 8 = Ok assets
    /\ In (py "hero", images) assets /\ In r images
    /\ Py.dict_find r (py "alt") = Some (py "Professional Seiko " ++ text ++ py " imagery")
    /\ ~ In 43 (py "Professional Seiko " ++ text ++ py " imagery").
Proof.
  destruct hero_images_at_default_count as (assets & images & r0 & r4 & Hget & Hfind & H0 & _).
  apply dict_find_In in Hfind.
  apply getitem_nth in H0; [| lia]. apply nth_error_In in H0.
  destruct (section_alt_text_has_no_plus (U := ascii_case) asset_manager 8 assets
              (py "hero") images r0 Hget Hfind H0) as (text & Halt & Hplus).
  exists assets, images, r0, text.
  repeat (split; [assumption |]). assumption.
Defined.

(** ** The query strings of [get_product_image] *)

Lemma scalar_value_range (c : Z) :
  Py.scalar_value c = true -> 0 <= c <= 0x10FFFF.
Proof.
  unfold Py.scalar_value. intros H.
  apply orb_true_iff in H as [H | H]; apply andb_true_iff in H as [H1 H2].
  - apply Z.leb_le in H1. apply Z.ltb_lt in H2. lia.
  - apply Z.leb_le in H1, H2. lia.
Qed.

Lemma lor_byte (a b : Z) : is_byte a -> is_byte b -> is_byte (Z.lor a b).
Proof.
  unfold is_byte. intros Ha Hb. split; [apply Z.lor_nonneg; lia |].
  destruct (Z.eq_dec a 0) as [-> | Ha0]; [rewrite Z.lor_0_l; lia |].
  destruct (Z.eq_dec b 0) as [-> | Hb0]; [rewrite Z.lor_0_r; lia |].
  assert (Hpos : 0 <= Z.lor a b) by (apply Z.lor_nonneg; lia).
  destruct (Z.eq_dec (Z.lor a b) 0) as [-> | Hl0]; [lia |].
  change 256 with (2 ^ 8). apply Z.log2_lt_pow2; [lia |].
  rewrite Z.log2_lor by lia.
  assert (Z.log2 a < 8) by (apply Z.log2_lt_pow2; lia).
  assert (Z.log2 b < 8) by (apply Z.log2_lt_pow2; lia).
  lia.
Qed.

Lemma continuation_byte (x : Z) : 0 <= x -> is_byte (Z.lor 128 (Z.land x 63)).
Proof.
  intros Hx. apply lor_byte; [unfold is_byte; lia |].
  change 63 with (Z.ones 6). rewrite Z.land_ones by lia.
  unfold is_byte. pose proof (Z.mod_pos_bound x (2 ^ 6)). lia.
Qed.

Lemma leading_byte (tag c k bound : Z) :
  is_byte tag -> 0 <= c < bound -> 0 <= k -> bound <= 256 * 2 ^ k ->
  is_byte (Z.lor tag (Z.shiftr c k)).
Proof.
  intros Ht Hc Hk Hb. apply lor_byte; [exact Ht |].
  rewrite Z.shiftr_div_pow2 by exact Hk. unfold is_byte. split.
  - apply Z.div_pos; lia.
  - apply Z.div_lt_upper_bound; lia.
Qed.

Lemma encode_char_bytes (c : Z) (bs : pybytes) :
  Py.encode_char c = Ok bs -> Forall is_byte bs.
Proof.
  unfold Py.encode_char.
  destruct (Py.scalar_value c) eqn:Hs; [| discriminate]. cbn [negb].
  apply scalar_value_range in Hs.
  assert (Hsh : forall k, 0 <= k -> 0 <= Z.shiftr c k)
    by (intros k Hk; apply Z.shiftr_nonneg; lia).
  assert (B192 : is_byte 192) by (unfold is_byte; lia).
  assert (B224 : is_byte 224) by (unfold is_byte; lia).
  assert (B240 : is_byte 240) by (unfold is_byte; lia).
  destruct (Z.ltb_spec c 128) as [L1 | L1].
  { intros Heq. injection Heq as <-.
    apply Forall_cons; [unfold is_byte; lia | apply Forall_nil]. }
  destruct (Z.ltb_spec c 2048) as [L2 | L2].
  { intros Heq. injection Heq as <-.
    apply Forall_cons; [apply (leading_byte 192 c 6 2048); (assumption || lia) |].
    apply Forall_cons; [apply continuation_byte; lia | apply Forall_nil]. }
  destruct (Z.ltb_spec c 65536) as [L3 | L3].
  { intros Heq. injection Heq as <-.
    apply Forall_cons; [apply (leading_byte 224 c 12 65536); (assumption || lia) |].
    apply Forall_cons; [apply continuation_byte, Hsh; lia |].
    apply Forall_cons; [apply continuation_byte; lia | apply Forall_nil]. }
  intros Heq. injection Heq as <-.
  apply Forall_cons; [apply (leading_byte 240 c 18 1114112); (assumption || lia) |].
  apply Forall_cons; [apply continuation_byte, Hsh; lia |].
  apply Forall_cons; [apply continuation_byte, Hsh; lia |].
  apply Forall_cons; [apply continuation_byte; lia | apply Forall_nil].
Qed.

Lemma encode_bytes (s : pystr) (bs : pybytes) :
  Py.encode s = Ok bs -> Forall is_byte bs.
Proof.
  revert bs. induction s as [| c s IH]; simpl; intros bs H.
  - injection H as <-. constructor.
  - apply bind_Ok_inv in H as (b & Hb & H).
    apply bind_Ok_inv in H as (bs' & Hbs' & H). injection H as <-.
    apply Forall_app. split; [now apply encode_char_bytes in Hb | now apply IH].
Qed.

Lemma HEX_digit_safe (n : Z) :
  0 <= n < 16 -> Urllib.safe_byte (Urllib.HEX_digit n) = true.
Proof.
  intros H.
  assert (Hall : forallb (fun k => Urllib.safe_byte (Urllib.HEX_digit k))
                         (Py.range 16) = true) by reflexivity.
  rewrite forallb_forall in Hall. apply Hall. now apply In_range.
Qed.

Lemma quote_byte_safe (b : Z) :
  is_byte b -> forallb query_safe (Urllib.quote_byte b) = true.
Proof.
  intros Hb. unfold is_byte in Hb. unfold Urllib.quote_byte.
  destruct (Urllib.safe_byte b) eqn:E; cbn [forallb]; unfold query_safe.
  - now rewrite E.
  - rewrite !HEX_digit_safe.
    + reflexivity.
    + apply Z.mod_pos_bound. lia.
    + split; [apply Z.div_pos; lia | apply Z.div_lt_upper_bound; lia].
Qed.

Lemma quote_query_safe (s q : pystr) :
  Urllib.quote s = Ok q -> forallb query_safe q = true.
Proof.
  unfold Urllib.quote. intros H.
  apply bind_Ok_inv in H as (bs & Hbs & H). injection H as <-.
  apply encode_bytes in Hbs.
  induction Hbs as [| b bs Hb _ IH]; [reflexivity |].
  cbn [flat_map]. rewrite forallb_app, IH, quote_byte_safe by exact Hb. reflexivity.
Qed.

Lemma query_safe_not_reserved (q : pystr) (c : Z) :
  forallb query_safe q = true -> In c q -> ~ In c (py " #&+=?").
Proof.
  intros Hq Hc Hr.
  rewrite forallb_forall in Hq. specialize (Hq c Hc).
  vm_compute in Hr.
  repeat (destruct Hr as [Hr | Hr]; [subst c; vm_compute in Hq; discriminate Hq |]).
  exact Hr.
Qed.

Lemma seed_text_of_seed (seed : Z) :
  0 <= seed <= 9999 -> seed_text (Py.str_of_int seed) = true.
Proof.
  intros H.
  assert (Hall : forallb (fun n => seed_text (Py.str_of_int n)) (Py.range 10000) = true)
    by (vm_compute; reflexivity).
  rewrite forallb_forall in Hall. apply Hall. apply In_range. lia.
Qed.

(** X4.  Whatever the product name and image type, the two search URLs of
    a returned record are [?<term>&sig=<seed>] where the term holds only
    unreserved characters, [/] and [%] (so no space, [#], [&], [+], [=] or
    [?]) and the seed is one to four decimal digits: a product name cannot
    add or alter a query parameter. *)
Theorem product_query_is_escaped {U : UnicodeData} (self : SeikoAssetManager)
    (product_name image_type : pystr) (r : AssetRecord) :
  get_product_image self product_name image_type = Ok r ->
  exists q0 q1 seed,
    Py.dict_find r (py "primary")
    = Some (base_unsplash_url self ++ py "/800x800/?" ++ q0 ++ py "&sig=" ++ seed)
    /\ Py.dict_find r (py "secondary")
       = Some (base_unsplash_url self ++ py "/800x800/?" ++ q1 ++ py "&sig=" ++ seed)
    /\ Py.dict_find r (py "fallback")
       = Some (base_picsum_url self ++ py "/800/800?random=" ++ seed)
    /\ forallb query_safe q0 = true
    /\ forallb query_safe q1 = true
    /\ (forall c, In c (q0 ++ q1) -> ~ In c (py " #&+=?"))
    /\ seed_text seed = true.
Proof.
  intros H.
  apply get_product_image_inv in H
    as (seed & t0 & t1 & rest & q0 & q1 & Hseed & _ & Hq0 & Hq1 & ->).
  apply quote_query_safe in Hq0, Hq1. apply seed_of_inv in Hseed as [_ Hrange].
  exists q0, q1, (Py.str_of_int seed).
  repeat (split; [reflexivity || assumption |]).
  split.
  - intros c Hc. apply in_app_iff in Hc as [Hc | Hc].
    + exact (query_safe_not_reserved q0 c Hq0 Hc).
    + exact (query_safe_not_reserved q1 c Hq1 Hc).
  - now apply seed_text_of_seed.
Qed.

Example product_name_with_ampersand :
  get_product_image (U := ascii_case) asset_manager (py "A&B=C #1?") (py "main")
  = Ok [ (py "primary",
          py "https://source.unsplash.com/800x800/?seiko%2Ba%26b%3Dc%2B%231%3F&sig=9796");
         (py "secondary",
          py "https://source.unsplash.com/800x800/?a%26b%3Dc%2B%231%3F%2Bwatch&sig=9796");
         (py "fallback", py "https://picsum.photos/800/800?random=9796");
         (py "alt", py "A&B=C #1? - Professional watch photography");
         (py "title", py "A&B=C #1?") ].
Proof. vm_compute. reflexivity. Qed.

Lemma product_query_is_escaped_witness :
  exists r q0 q1 seed,
    get_product_image (U := ascii_case) asset_manager (py "A&B=C #1?") (py "main") = Ok r
    /\ Py.dict_find r (py "primary")
       = Some (py "https://source.unsplash.com" ++ py "/800x800/?" ++ q0
                 ++ py "&sig=" ++ seed)
    /\ forallb query_safe q0 = true
    /\ forallb query_safe q1 = true
    /\ seed_text seed = true.
Proof.
  destruct (get_product_image_total (U := ascii_case) asset_manager
              (py "A&B=C #1?") (py "main")) as [r Hr];
    [apply encodable_forallb; reflexivity | apply encodable_forallb; reflexivity |].
  destruct (product_query_is_escaped (U := ascii_case) asset_manager _ _ r Hr)
    as (q0 & q1 & seed & Hp & _ & _ & H0 & H1 & _ & Hs).
  exists r, q0, q1, seed. repeat (split; [assumption |]). assumption.
Defined.

(** ** When [get_product_image] returns, and what its URLs depend on *)

Lemma product_returns_on_key {U : UnicodeData} (self : SeikoAssetManager)
    product_name image_type :
  Py.encodable (clean_name_of product_name ++ py "_" ++ image_type) ->
  exists r, get_product_image self product_name image_type = Ok r.
Proof.
  intros Hkey. pose proof Hkey as Hparts.
  apply encodable_app in Hparts as [Hn _].
  unfold get_product_image. fold (clean_name_of product_name).
  destruct (seed_of_ok _ Hkey) as (seed & -> & _). cbn [bind].
  pose proof (product_search_terms_encodable _ image_type Hn) as Henc.
  destruct (product_search_terms_two (clean_name_of product_name) image_type)
    as (t0 & t1 & rest & Eterms).
  rewrite Eterms in *.
  inversion Henc as [| ? ? H0 Henc']; subst.
  inversion Henc' as [| ? ? H1 _]; subst.
  destruct (quote_ok t0 H0) as [q0 Hq0]. destruct (quote_ok t1 H1) as [q1 Hq1].
  change (Py.getitem (t0 :: t1 :: rest) 0) with (Ok t0).
  change (Py.getitem (t0 :: t1 :: rest) 1) with (Ok t1).
  cbn [bind]. rewrite Hq0. cbn [bind]. rewrite Hq1. cbn [bind]. eauto.
Qed.

Lemma product_raises_off_key {U : UnicodeData} (self : SeikoAssetManager)
    product_name image_type :
  ~ Py.encodable (clean_name_of product_name ++ py "_" ++ image_type) ->
  get_product_image self product_name image_type = Raise UnicodeEncodeError.
Proof.
  intros H. unfold get_product_image. fold (clean_name_of product_name).
  now rewrite seed_of_raise.
Qed.

(** X5.  The three URLs of [get_product_image] depend on the product name
    only through its lower-cased, space-to-plus form: two names with the
    same such form get the same URLs (or both calls raise the same
    exception), while each record keeps its own name as title. *)
Theorem product_urls_depend_on_clean_name {U : UnicodeData}
    (self : SeikoAssetManager) (name1 name2 image_type : pystr) :
  Py.replace1 (str_lower name1) 32 43 = Py.replace1 (str_lower name2) 32 43 ->
  match get_product_image self name1 image_type,
        get_product_image self name2 image_type with
  | Ok r1, Ok r2 =>
      Py.dict_find r1 (py "primary") = Py.dict_find r2 (py "primary")
      /\ Py.dict_find r1 (py "secondary") = Py.dict_find r2 (py "secondary")
      /\ Py.dict_find r1 (py "fallback") = Py.dict_find r2 (py "fallback")
      /\ Py.dict_find r1 (py "title") = Some name1
      /\ Py.dict_find r2 (py "title") = Some name2
  | Raise e1, Raise e2 => e1 = e2
  | _, _ => False
  end.
Proof.
  intros Hclean. fold (clean_name_of name1) in Hclean. fold (clean_name_of name2) in Hclean.
  destruct (encodable_dec (clean_name_of name1 ++ py "_" ++ image_type)) as [He | He].
  - destruct (product_returns_on_key self name1 image_type He) as [r1 Hr1].
    rewrite Hclean in He.
    destruct (product_returns_on_key self name2 image_type He) as [r2 Hr2].
    rewrite Hr1, Hr2.
    apply get_product_image_inv in Hr1
      as (seed & t0 & t1 & rest & q0 & q1 & Hseed & Hterms & Hq0 & Hq1 & ->).
    apply get_product_image_inv in Hr2
      as (seed' & t0' & t1' & rest' & q0' & q1' & Hseed' & Hterms' & Hq0' & Hq1' & ->).
    rewrite Hclean in Hseed, Hterms.
    assert (seed' = seed) by congruence. subst seed'.
    rewrite Hterms in Hterms'. injection Hterms' as <- <- <-.
    assert (q0' = q0) by congruence. assert (q1' = q1) by congruence. subst q0' q1'.
    repeat split.
  - rewrite (product_raises_off_key self name1 image_type He).
    rewrite Hclean in He.
    rewrite (product_raises_off_key self name2 image_type He).
    reflexivity.
Qed.

Lemma product_urls_depend_on_clean_name_witness :
  match get_product_image (U := ascii_case) asset_manager
          (py "Seiko 5 Sports") (py "main"),
        get_product_image (U := ascii_case) asset_manager
          (py "seiko+5 SPORTS") (py "main") with
  | Ok r1, Ok r2 =>
      Py.dict_find r1 (py "primary") = Py.dict_find r2 (py "primary")
      /\ Py.dict_find r1 (py "secondary") = Py.dict_find r2 (py "secondary")
      /\ Py.dict_find r1 (py "fallback") = Py.dict_find r2 (py "fallback")
      /\ Py.dict_find r1 (py "title") = Some (py "Seiko 5 Sports")
      /\ Py.dict_find r2 (py "title") = Some (py "seiko+5 SPORTS")
  | Raise e1, Raise e2 => e1 = e2
  | _, _ => False
  end.
Proof.
  apply (product_urls_depend_on_clean_name (U := ascii_case) asset_manager
           (py "Seiko 5 Sports") (py "seiko+5 SPORTS") (py "main")).
  reflexivity.
Defined.

(** X7.  [get_product_image] has one way to fail: it returns a record
    exactly when its composite key [{clean_name}_{image_type}] can be
    UTF-8 encoded, and otherwise raises [UnicodeEncodeError]; no index, key
    or arithmetic error can come out of it. *)
Theorem product_image_fails_only_on_encoding {U : UnicodeData}
    (self : SeikoAssetManager) (product_name image_type : pystr) :
  match get_product_image self product_name image_type with
  | Ok r =>
      Py.encodable (Py.replace1 (str_lower product_name) 32 43)
      /\ Py.encodable image_type
  | Raise e =>
      e = UnicodeEncodeError
      /\ ~ (Py.encodable (Py.replace1 (str_lower product_name) 32 43)
            /\ Py.encodable image_type)
  end.
Proof.
  fold (clean_name_of product_name).
  assert (Hkey : Py.encodable (clean_name_of product_name ++ py "_" ++ image_type)
                 <-> Py.encodable (clean_name_of product_name)
                     /\ Py.encodable image_type).
  { rewrite !encodable_app. split; [tauto |].
    intros [H1 H2]. repeat split; try assumption.
    apply encodable_literal. reflexivity. }
  destruct (encodable_dec (clean_name_of product_name ++ py "_" ++ image_type))
    as [He | He].
  - destruct (product_returns_on_key self _ _ He) as [r ->]. now apply Hkey.
  - rewrite (product_raises_off_key self _ _ He). split; [reflexivity |].
    intros H. apply He. now apply Hkey.
Qed.

(** ** The seeds of [get_seiko_assets] are pairwise distinct *)

Lemma str_of_int_seed_inj (a b : Z) :
  0 <= a <= 9999 -> 0 <= b <= 9999 ->
  Py.str_of_int a = Py.str_of_int b -> a = b.
Proof.
  intros Ha Hb Heq.
  assert (Hall : forallb (fun n => int_of_digits (Py.str_of_int n) =? n)
                         (Py.range 10000) = true)
    by (vm_compute; reflexivity).
  rewrite forallb_forall in Hall.
  assert (Ea : int_of_digits (Py.str_of_int a) = a)
    by (apply Z.eqb_eq, Hall, In_range; lia).
  assert (Eb : int_of_digits (Py.str_of_int b) = b)
    by (apply Z.eqb_eq, Hall, In_range; lia).
  congruence.
Qed.

Lemma distinct_seeds_spec (l : list (result Z)) :
  distinct_seeds l = true ->
  forall i j seed,
    nth_error l i = Some (Ok seed) -> nth_error l j = Some (Ok seed) -> i = j.
Proof.
  induction l as [| x l IH]; simpl; intros H i j seed Hi Hj.
  - destruct i; discriminate.
  - apply andb_true_iff in H as [Hx Hl]. apply negb_true_iff in Hx.
    assert (Hnot : forall k, nth_error l k = Some (Ok seed) -> x <> Ok seed).
    { intros k Hk ->.
      assert (existsb (result_eqb (Ok seed)) l = true); [| congruence].
      apply existsb_exists. exists (Ok seed). split.
      - eapply nth_error_In; eassumption.
      - simpl. apply Z.eqb_refl. }
    destruct i as [| i], j as [| j]; simpl in Hi, Hj.
    + reflexivity.
    + injection Hi as Hi. exfalso. eapply Hnot; eassumption.
    + injection Hj as Hj. exfalso. eapply Hnot; eassumption.
    + f_equal. eapply IH; eassumption.
Qed.

Lemma section_seed_table_distinct :
  distinct_seeds (map snd section_seed_table) = true.
Proof. vm_compute. reflexivity. Qed.

Lemma NoDup_nth_error_fst {A B : Type} (l : list (A * B)) (i j : nat) (a : A) (b b' : B) :
  nth_error l i = Some (a, b) -> nth_error l j = Some (a, b') ->
  NoDup (map fst l) -> i = j.
Proof.
  intros Hi Hj Hnd.
  apply (proj1 (NoDup_nth_error (map fst l)) Hnd).
  - apply nth_error_Some. rewrite nth_error_map, Hi. discriminate.
  - now rewrite !nth_error_map, Hi, Hj.
Qed.

Lemma section_seed_table_entry section keywords i :
  In (section, keywords) SEIKO_WATCH_CATEGORIES ->
  0 <= i < Py.len keywords ->
  In ((section, i), seed_of (section_key section i)) section_seed_table.
Proof.
  intros Hin Hi. unfold section_seed_table.
  apply in_flat_map. exists (section, keywords). split; [exact Hin |].
  cbn [fst snd]. apply in_map_iff. exists i. split; [reflexivity |].
  now apply In_range.
Qed.

(** Two reachable (section, index) pairs with the same seed are the same
    pair. *)
Lemma section_seeds_injective s1 kw1 i1 s2 kw2 i2 seed :
  In (s1, kw1) SEIKO_WATCH_CATEGORIES -> In (s2, kw2) SEIKO_WATCH_CATEGORIES ->
  0 <= i1 < Py.len kw1 -> 0 <= i2 < Py.len kw2 ->
  seed_of (section_key s1 i1) = Ok seed ->
  seed_of (section_key s2 i2) = Ok seed ->
  (s1, i1) = (s2, i2).
Proof.
  intros Hin1 Hin2 Hi1 Hi2 Hs1 Hs2.
  pose proof (section_seed_table_entry _ _ _ Hin1 Hi1) as E1.
  pose proof (section_seed_table_entry _ _ _ Hin2 Hi2) as E2.
  rewrite Hs1 in E1. rewrite Hs2 in E2.
  apply In_nth_error in E1 as [n1 E1]. apply In_nth_error in E2 as [n2 E2].
  assert (n1 = n2).
  { apply (distinct_seeds_spec _ section_seed_table_distinct n1 n2 seed);
      rewrite nth_error_map; [rewrite E1 | rewrite E2]; reflexivity. }
  subst n2. congruence.
Qed.

Lemma get_seiko_assets_getitem_bound {U : UnicodeData} (self : SeikoAssetManager)
    section_count assets section keywords images i r :
  In (section, keywords) SEIKO_WATCH_CATEGORIES ->
  get_seiko_assets self section_count = Ok assets ->
  Py.dict_find assets section = Some images ->
  0 <= i -> Py.getitem images i = Ok r ->
  i < Py.len keywords.
Proof.
  intros Hin Hget Hfind Hi Hr.
  destruct (get_seiko_assets_lookup self _ _ _ _ Hget Hin) as (images' & Hf' & Himgs).
  rewrite Hfind in Hf'. injection Hf' as <-.
  apply getitem_nth in Hr; [| exact Hi].
  destruct (Forall2_nth_error_r _ _ _ Himgs _ _ Hr) as (idx & Hidx & _).
  pose proof (range_nth_inv _ _ _ Hidx) as ->.
  apply nth_error_In, In_range in Hidx. lia.
Qed.

(** X8.  The comment "unique seed" holds for [get_seiko_assets]: in one
    result, two records at different places (another section or another
    index) never share a seed, so their seed-only fallback URLs differ. *)
Theorem section_records_have_distinct_seeds {U : UnicodeData}
    (self : SeikoAssetManager) (section_count : Z)
    (assets : Py.dict pystr (list AssetRecord))
    (s1 s2 : pystr) (kw1 kw2 : list pystr) (images1 images2 : list AssetRecord)
    (i1 i2 : Z) (r1 r2 : AssetRecord) :
  get_seiko_assets self section_count = Ok assets ->
  In (s1, kw1) SEIKO_WATCH_CATEGORIES -> In (s2, kw2) SEIKO_WATCH_CATEGORIES ->
  Py.dict_find assets s1 = Some images1 -> Py.dict_find assets s2 = Some images2 ->
  0 <= i1 -> 0 <= i2 ->
  Py.getitem images1 i1 = Ok r1 -> Py.getitem images2 i2 = Ok r2 ->
  (s1, i1) <> (s2, i2) ->
  Py.dict_find r1 (py "fallback") <> Py.dict_find r2 (py "fallback").
Proof.
  intros Hget Hin1 Hin2 Hf1 Hf2 Hi1 Hi2 Hr1 Hr2 Hne Heq.
  pose proof (get_seiko_assets_getitem_bound self _ _ _ _ _ _ _ Hin1 Hget Hf1 Hi1 Hr1) as B1.
  pose proof (get_seiko_assets_getitem_bound self _ _ _ _ _ _ _ Hin2 Hget Hf2 Hi2 Hr2) as B2.
  pose proof (get_seiko_assets_getitem self _ _ _ _ _ _ _ Hin1 Hget Hf1 Hi1 Hr1) as R1.
  pose proof (get_seiko_assets_getitem self _ _ _ _ _ _ _ Hin2 Hget Hf2 Hi2 Hr2) as R2.
  destruct R1 as (k1 & fbs1 & fb1 & seed1 & qk1 & qf1 & _ & _ & _ & Hseed1 & _ & _ & ->).
  destruct R2 as (k2 & fbs2 & fb2 & seed2 & qk2 & qf2 & _ & _ & _ & Hseed2 & _ & _ & ->).
  unfold tiered_record in Heq. cbn [Py.dict_find] in Heq.
  change (Py.str_eqb (py "primary") (py "fallback")) with false in Heq.
  change (Py.str_eqb (py "secondary") (py "fallback")) with false in Heq.
  change (Py.str_eqb (py "fallback") (py "fallback")) with true in Heq.
  cbn iota in Heq. injection Heq as Heq.
  apply app_inv_head in Heq.
  apply (app_inv_head (py "/1200/800?random=") (Py.str_of_int seed1)
           (Py.str_of_int seed2)) in Heq.
  pose proof (seed_of_inv _ _ Hseed1) as [_ Rg1].
  pose proof (seed_of_inv _ _ Hseed2) as [_ Rg2].
  apply str_of_int_seed_inj in Heq; [| assumption | assumption]. subst seed2.
  apply Hne.
  apply (section_seeds_injective s1 kw1 i1 s2 kw2 i2 seed1); try assumption; lia.
Qed.

Lemma section_records_have_distinct_seeds_witness :
  exists assets images r0 r4,
    get_seiko_assets (U := ascii_case) asset_manager 8 = Ok assets
    /\ Py.dict_find assets (py "hero") = Some images
    /\ Py.getitem images 0 = Ok r0
    /\ Py.getitem images 4 = Ok r4
    /\ Py.dict_find r0 (py "fallback") <> Py.dict_find r4 (py "fallback").
Proof.
  destruct hero_images_at_default_count
    as (assets & images & r0 & r4 & Hget & Hfind & H0 & H4).
  exists assets, images, r0, r4.
  repeat (split; [assumption |]).
  apply (section_records_have_distinct_seeds (U := ascii_case) asset_manager 8 assets
           (py "hero") (py "hero")
           [py "seiko+watch+luxury"; py "luxury+timepiece"; py "premium+watch";
            py "seiko+automatic"; py "watch+collection"; py "luxury+wristwatch"]
           [py "seiko+watch+luxury"; py "luxury+timepiece"; py "premium+watch";
            py "seiko+automatic"; py "watch+collection"; py "luxury+wristwatch"]
           images images 0 4 r0 r4 Hget (or_introl eq_refl) (or_introl eq_refl)
           Hfind Hfind);
    try assumption; try lia.
  intros H. injection H as H. discriminate H.
Defined.

(** ** [Settings.parse_debug] *)

Lemma str_in_In (x : pystr) (ts : list pystr) : str_in x ts = true <-> In x ts.
Proof.
  unfold str_in. rewrite existsb_exists. split.
  - intros (t & Hin & Heq). apply str_eqb_eq in Heq. now subst.
  - intros Hin. exists x. split; [exact Hin | now apply str_eqb_eq].
Qed.

(** Split every comparison of the goal into its two cases. *)
Ltac split_leb :=
  repeat match goal with
         | |- context [?a <=? ?b] => destruct (Z.leb_spec a b); cbn [andb]
         | |- context [?a <? ?b] => destruct (Z.ltb_spec a b); cbn [andb]
         end.

Lemma lower_of_other_case (c : Z) :
  ascii_lower_char (ascii_upper_char c) = ascii_lower_char c
  /\ ascii_lower_char (ascii_lower_char c) = ascii_lower_char c.
Proof.
  unfold ascii_lower_char, ascii_upper_char, is_upper, is_lower.
  destruct (Z.leb_spec 97 c), (Z.leb_spec c 122), (Z.leb_spec 65 c), (Z.leb_spec c 90);
    cbn [andb]; split; split_leb; lia.
Qed.

Lemma is_ascii_other_case (c : Z) :
  is_ascii c = true ->
  is_ascii (ascii_upper_char c) = true /\ is_ascii (ascii_lower_char c) = true.
Proof.
  unfold is_ascii, ascii_upper_char, ascii_lower_char, is_upper, is_lower.
  intros H. apply andb_true_iff in H as [H1 H2].
  apply Z.leb_le in H1. apply Z.ltb_lt in H2.
  destruct (Z.leb_spec 97 c), (Z.leb_spec c 122), (Z.leb_spec 65 c), (Z.leb_spec c 90);
    cbn [andb]; split; split_leb; (reflexivity || lia).
Qed.

(** X9.  For an ASCII string, [parse_debug] answers [True] exactly when
    the string, lower-cased, is one of [true], [1], [yes], [on]; the answer
    does not change when the string is upper-cased or lower-cased first.  A
    string is never judged by its truthiness. *)
Theorem parse_debug_ignores_ascii_case {U : UnicodeData} (s : pystr) :
  forallb is_ascii s = true ->
  (parse_debug (VStr s) = true
   <-> In (ascii_lower s) [py "true"; py "1"; py "yes"; py "on"])
  /\ parse_debug (VStr (map ascii_upper_char s)) = parse_debug (VStr s)
  /\ parse_debug (VStr (map ascii_lower_char s)) = parse_debug (VStr s).
Proof.
  intros Hs.
  assert (Hup : forallb is_ascii (map ascii_upper_char s) = true).
  { rewrite forallb_forall in *. intros c Hc. apply in_map_iff in Hc as (c0 & <- & Hc0).
    now apply is_ascii_other_case, Hs. }
  assert (Hlo : forallb is_ascii (map ascii_lower_char s) = true).
  { rewrite forallb_forall in *. intros c Hc. apply in_map_iff in Hc as (c0 & <- & Hc0).
    now apply is_ascii_other_case, Hs. }
  unfold parse_debug.
  rewrite (str_lower_ascii s Hs), (str_lower_ascii _ Hup), (str_lower_ascii _ Hlo).
  split; [apply str_in_In |].
  unfold ascii_lower. rewrite !map_map.
  split; f_equal; apply map_ext; intros c; apply lower_of_other_case.
Qed.

Lemma parse_debug_ignores_ascii_case_witness :
  parse_debug (U := ascii_case) (VStr (py "Yes")) = true
  /\ parse_debug (U := ascii_case) (VStr (py "YES")) = true
  /\ parse_debug (U := ascii_case) (VStr (py "yes")) = true.
Proof.
  destruct (parse_debug_ignores_ascii_case (U := ascii_case) (py "Yes") eq_refl)
    as (Hiff & Hup & Hlo).
  assert (H : parse_debug (U := ascii_case) (VStr (py "Yes")) = true).
  { apply Hiff. simpl. right. right. left. reflexivity. }
  split; [exact H |]. split.
  - change (py "YES") with (map ascii_upper_char (py "Yes")). now rewrite Hup.
  - change (py "yes") with (map ascii_lower_char (py "Yes")). now rewrite Hlo.
Defined.

Example parse_debug_examples :
  parse_debug (U := ascii_case) (VStr (py "On")) = true
  /\ parse_debug (U := ascii_case) (VStr (py "false")) = false
  /\ parse_debug (U := ascii_case) (VStr (py " true")) = false
  /\ parse_debug (U := ascii_case) (VStr (py "y")) = false
  /\ parse_debug (U := ascii_case) (VStr []) = false
  /\ parse_debug (U := ascii_case) (VInt 2) = true
  /\ parse_debug (U := ascii_case) (VInt 0) = false
  /\ parse_debug (U := ascii_case) VNone = false
  /\ parse_debug (U := ascii_case) (VBytes [116; 114; 117; 101]) = true.
Proof. repeat split. Qed.

(** ** The database bootstrap *)

Example bootstrap_of_an_empty_database :
  match init_database no_faults (fun _ => py "$2b$hash") (fun _ => []) empty_world with
  | (res, w) =>
      res = Ok tt
      /\ count_rows (py "categories") (rows w) = 4
      /\ count_rows (py "products") (rows w) = 7
      /\ count_rows (py "users") (rows w) = 2
      /\ pending w = []
      /\ map fst (logs w) = [INFO; INFO; INFO]
      /\ length (calls w) = 23%nat
  end.
Proof. vm_compute. repeat split. Qed.

Example bootstrap_with_failing_second_commit :
  match init_database (second_commit_fails OSError) (fun _ => py "$2b$hash")
          (fun _ => py "disk full") empty_world with
  | (res, w) =>
      res = Raise OSError
      /\ rows w = sample_categories
      /\ pending w = []
      /\ last (calls w) OpCreateAll = OpClose
      /\ last (logs w) (INFO, [])
         = (ERROR, py "Error initializing database: disk full")
  end.
Proof. vm_compute. repeat split. Qed.

Section BootstrapFacts.

Variable faults : list DbOp -> DbOp -> option exn.
Variable get_password_hash : pystr -> pystr.
Variable exn_text : exn -> pystr.

Lemma call_cases {A : Type} (op : DbOp) (value : World -> A)
    (effect : World -> World) (w : World) :
  (exists e, faults (calls w) op = Some e
             /\ call faults op value effect w = (Raise e, record_call op w))
  \/ (faults (calls w) op = None
      /\ call faults op value effect w
         = (Ok (value (record_call op w)), effect (record_call op w))).
Proof.
  unfold call. destruct (faults (calls w) op) as [e |]; [left | right]; eauto.
Qed.

Lemma session_sound_ret {A : Type} (a : A) : session_sound faults (retM a).
Proof.
  intros w. exists [], []. cbn. rewrite !app_nil_r.
  repeat split. intros e H. discriminate H.
Qed.

Lemma session_sound_log (msg : pystr) : session_sound faults (log INFO msg).
Proof.
  intros w. exists [], [msg]. cbn. rewrite app_nil_r.
  repeat split. intros e H. discriminate H.
Qed.

Lemma session_sound_call {A : Type} (op : DbOp) (value : World -> A)
    (effect : World -> World) :
  session_op op = true ->
  (forall w, calls (effect w) = calls w /\ logs (effect w) = logs w) ->
  session_sound faults (call faults op value effect).
Proof.
  intros Hop Heff w. exists [op], [].
  destruct (call_cases op value effect w) as [(e & Hf & ->) | (Hf & ->)]; cbn [fst snd].
  - cbn. rewrite Hop, app_nil_r. repeat split.
    intros e' H. injection H as <-. exists [], op, []. rewrite app_nil_r. now split.
  - destruct (Heff (record_call op w)) as [-> ->]. cbn. rewrite Hop, app_nil_r.
    repeat split. intros e' H. discriminate H.
Qed.

Lemma session_sound_bind {A B : Type} (m : M A) (k : A -> M B) :
  session_sound faults m -> (forall a, session_sound faults (k a)) ->
  session_sound faults (bindM m k).
Proof.
  intros Hm Hk w. unfold bindM. specialize (Hm w).
  destruct (m w) as [[a | e] w1]; cbn [fst snd exn_of] in *.
  - specialize (Hk a w1).
    destruct Hm as (new1 & msgs1 & Hc1 & Hs1 & Hl1 & _).
    destruct Hk as (new2 & msgs2 & Hc2 & Hs2 & Hl2 & Hr2).
    exists (new1 ++ new2), (msgs1 ++ msgs2).
    rewrite Hc2, Hc1, Hl2, Hl1, forallb_app, Hs1, Hs2, map_app, <- !app_assoc.
    repeat split. intros e He.
    destruct (Hr2 e He) as (before & op & after & -> & Hf).
    exists (new1 ++ before), op, after. rewrite <- app_assoc. split; [reflexivity |].
    rewrite app_assoc, <- Hc1. exact Hf.
  - exact Hm.
Qed.

Lemma session_sound_forM_ {A : Type} (f : A -> M unit) (xs : list A) :
  (forall x, session_sound faults (f x)) -> session_sound faults (forM_ f xs).
Proof.
  intros Hf. induction xs as [| x xs IH]; cbn [forM_].
  - apply session_sound_ret.
  - apply session_sound_bind; [apply Hf | intros _; exact IH].
Qed.

Lemma session_sound_db_add (r : Row) : session_sound faults (db_add faults r).
Proof. apply session_sound_call; [reflexivity | intros w; split; reflexivity]. Qed.

Lemma session_sound_db_commit : session_sound faults (db_commit faults).
Proof. apply session_sound_call; [reflexivity | intros w; split; reflexivity]. Qed.

Lemma session_sound_create_sample_data :
  session_sound faults (create_sample_data faults get_password_hash).
Proof.
  unfold create_sample_data, password_hash.
  repeat first
    [ apply session_sound_forM_; intros ?
    | apply session_sound_bind; [| intros ?]
    | apply session_sound_ret
    | apply session_sound_db_add
    | apply session_sound_db_commit
    | apply session_sound_log
    | apply session_sound_call; [reflexivity | intros ?; split; reflexivity] ].
Qed.

Lemma session_sound_seed_if_empty :
  session_sound faults (seed_if_empty faults get_password_hash).
Proof.
  unfold seed_if_empty, query_count.
  apply session_sound_bind.
  - apply session_sound_call; [reflexivity | intros w; split; reflexivity].
  - intros n. destruct (n =? 0).
    + apply session_sound_bind; [apply session_sound_create_sample_data |].
      intros _. apply session_sound_log.
    + apply session_sound_log.
Qed.

End BootstrapFacts.

Section BootstrapData.

Variable faults : list DbOp -> DbOp -> option exn.
Variable get_password_hash : pystr -> pystr.
Variable exn_text : exn -> pystr.

(** Adding rows touches nothing committed; when every [add] returns the
    rows are pending, in order. *)
Lemma forM_add_data (l : list Row) (w : World) :
  rows (snd (forM_ (db_add faults) l w)) = rows w
  /\ (fst (forM_ (db_add faults) l w) = Ok tt ->
      pending (snd (forM_ (db_add faults) l w)) = pending w ++ l).
Proof.
  revert w. induction l as [| r l IH]; intros w; cbn [forM_].
  - cbn. now rewrite app_nil_r.
  - unfold bindM.
    change (db_add faults r w)
      with (call faults (OpAdd r) (fun _ => tt) (add_row r) w).
    destruct (call_cases faults (OpAdd r) (fun _ => tt) (add_row r) w)
      as [(e & _ & ->) | (_ & ->)]; cbn beta iota; cbn [fst snd].
    + split; [reflexivity | discriminate].
    + destruct (IH (add_row r (record_call (OpAdd r) w))) as [Hr Hp].
      split; [rewrite Hr; reflexivity |].
      intros H. rewrite (Hp H). cbn. now rewrite <- app_assoc.
Qed.

(** A call that leaves the world as it is, or a step that only logs. *)
Ltac neutral_call E :=
  unfold bindM at 1;
  match goal with
  | |- context [call faults ?op ?v ?eff ?w] =>
      destruct (call_cases faults op v eff w) as [(? & _ & E) | (_ & E)];
      rewrite E; clear E; cbn beta iota
  end.

(** What [create_sample_data] leaves committed: everything when it returns;
    nothing new, or the categories alone, when it raises. *)
Lemma create_sample_data_data (w : World) :
  match create_sample_data faults get_password_hash w with
  | (res, w') =>
      (res = Ok tt
       /\ rows w' = rows w ++ pending w ++ sample_categories
                      ++ sample_rest get_password_hash
       /\ pending w' = [])
      \/ (exists e, res = Raise e
                    /\ (rows w' = rows w
                        \/ rows w' = rows w ++ pending w ++ sample_categories))
  end.
Proof.
  unfold create_sample_data.
  (* the categories *)
  unfold bindM at 1.
  destruct (forM_add_data sample_categories w) as [Hr1 Hp1].
  destruct (forM_ (db_add faults) sample_categories w) as [[[] | e1] w1];
    cbn [fst snd] in Hr1, Hp1; [| right; exists e1; split; [reflexivity | now left]].
  specialize (Hp1 eq_refl).
  (* the first commit *)
  unfold db_commit at 1. neutral_call E.
  { right. eexists. split; [reflexivity |]. left. cbn. exact Hr1. }
  set (w2 := commit_rows (record_call OpCommit w1)).
  assert (Hr2 : rows w2 = rows w ++ pending w ++ sample_categories)
    by (cbn; now rewrite Hr1, Hp1).
  assert (Hp2 : pending w2 = []) by reflexivity.
  clearbody w2. clear Hr1 Hp1 w1.
  (* the products *)
  unfold bindM at 1.
  destruct (forM_add_data sample_products w2) as [Hr3 Hp3].
  destruct (forM_ (db_add faults) sample_products w2) as [[[] | e3] w3];
    cbn [fst snd] in Hr3, Hp3;
    [| right; exists e3; split; [reflexivity | right; congruence]].
  specialize (Hp3 eq_refl). rewrite Hp2 in Hp3. cbn [app] in Hp3.
  rewrite Hr2 in Hr3. clear Hr2 Hp2 w2.
  (* import, AuthService(), the admin user *)
  neutral_call E.
  { right. eexists. split; [reflexivity |]. right. exact Hr3. }
  neutral_call E.
  { right. eexists. split; [reflexivity |]. right. exact Hr3. }
  unfold password_hash at 1. neutral_call E.
  { right. eexists. split; [reflexivity |]. right. exact Hr3. }
  unfold db_add at 1. neutral_call E.
  { right. eexists. split; [reflexivity |]. right. exact Hr3. }
  (* the demo user *)
  unfold password_hash at 1. neutral_call E.
  { right. eexists. split; [reflexivity |]. right. exact Hr3. }
  unfold db_add at 1. neutral_call E.
  { right. eexists. split; [reflexivity |]. right. exact Hr3. }
  (* the second commit *)
  unfold db_commit at 1. neutral_call E.
  { right. eexists. split; [reflexivity |]. right. exact Hr3. }
  left. split; [reflexivity |]. split; [| reflexivity].
  cbn. rewrite Hr3, Hp3. unfold sample_rest. now rewrite <- !app_assoc.
Qed.

End BootstrapData.

Section BootstrapRuns.

Variable faults : list DbOp -> DbOp -> option exn.
Variable get_password_hash : pystr -> pystr.
Variable exn_text : exn -> pystr.

(** [init_database], one external call at a time. *)
Lemma init_database_unfold (w : World) :
  init_database faults get_password_hash exn_text w
  = match faults (calls w) OpCreateAll with
    | Some e => log_and_reraise exn_text e (record_call OpCreateAll w)
    | None =>
        match faults (calls w ++ [OpCreateAll]) OpSessionLocal with
        | Some e =>
            log_and_reraise exn_text e
              (record_call OpSessionLocal
                 (snd (log INFO (py "Database tables created successfully")
                         (record_call OpCreateAll w))))
        | None =>
            match seed_if_empty faults get_password_hash (session_opened w) with
            | (outcome, wb) =>
                match faults (calls wb) OpClose with
                | Some e => log_and_reraise exn_text e (record_call OpClose wb)
                | None =>
                    match outcome with
                    | Ok a => (Ok a, close_session (record_call OpClose wb))
                    | Raise e =>
                        log_and_reraise exn_text e
                          (close_session (record_call OpClose wb))
                    end
                end
            end
        end
    end.
Proof.
  unfold init_database, try_except_Exception.
  unfold bindM at 1. unfold call at 1.
  destruct (faults (calls w) OpCreateAll) as [e |]; [reflexivity |].
  unfold bindM at 1. cbn [log].
  unfold bindM at 1. unfold call at 1. cbn [calls record_call].
  destruct (faults (calls w ++ [OpCreateAll]) OpSessionLocal) as [e |]; [reflexivity |].
  unfold try_finally.
  change (n <~ query_count faults (py "categories");;
          (if n =? 0
           then _ <~ create_sample_data faults get_password_hash;;
                log INFO (py "Sample data created successfully")
           else log INFO (py "Sample data already exists")))
    with (seed_if_empty faults get_password_hash).
  change (open_session _) with (session_opened w).
  destruct (seed_if_empty faults get_password_hash (session_opened w)) as [outcome wb].
  unfold db_close, call.
  destruct (faults (calls wb) OpClose) as [e |]; [reflexivity |].
  destruct outcome as [[] | e]; reflexivity.
Qed.

End BootstrapRuns.

Lemma count_rows_app (table : pystr) (a b : list Row) :
  count_rows table (a ++ b) = count_rows table a + count_rows table b.
Proof.
  unfold count_rows, Py.len. rewrite filter_app, length_app. lia.
Qed.

Lemma count_rows_nonneg (table : pystr) (a : list Row) : 0 <= count_rows table a.
Proof. unfold count_rows, Py.len. lia. Qed.

Lemma log_and_reraise_data (exn_text : exn -> pystr) (e : exn) (w : World) :
  fst (log_and_reraise exn_text e w) = Raise e
  /\ rows (snd (log_and_reraise exn_text e w)) = rows w
  /\ pending (snd (log_and_reraise exn_text e w)) = pending w
  /\ calls (snd (log_and_reraise exn_text e w)) = calls w
  /\ logs (snd (log_and_reraise exn_text e w))
     = logs w ++ (if is_Exception e
                  then [(ERROR, py "Error initializing database: " ++ exn_text e)]
                  else []).
Proof.
  unfold log_and_reraise. destruct (is_Exception e); cbn; rewrite ?app_nil_r;
    repeat split.
Qed.

Section BootstrapTheorems.

Variable faults : list DbOp -> DbOp -> option exn.
Variable get_password_hash : pystr -> pystr.
Variable exn_text : exn -> pystr.

(** What the guarded seeding leaves committed, on a session with nothing
    pending. *)
Lemma seed_if_empty_data (w : World) :
  pending w = [] ->
  match seed_if_empty faults get_password_hash w with
  | (res, w') =>
      if count_rows (py "categories") (rows w) =? 0 then
        (res = Ok tt
         /\ rows w' = rows w ++ sample_categories ++ sample_rest get_password_hash)
        \/ (exists e, res = Raise e
                      /\ (rows w' = rows w \/ rows w' = rows w ++ sample_categories))
      else rows w' = rows w
  end.
Proof.
  intros Hp. unfold seed_if_empty, query_count.
  unfold bindM at 1.
  destruct (call_cases faults (OpCount (py "categories"))
              (fun w0 => count_rows (py "categories") (rows w0)) (fun w0 => w0) w)
    as [(e & _ & ->) | (_ & ->)]; cbn beta iota.
  - destruct (count_rows (py "categories") (rows w) =? 0); [| reflexivity].
    right. exists e. split; [reflexivity | now left].
  - cbn [rows record_call].
    destruct (count_rows (py "categories") (rows w) =? 0); [| reflexivity].
    unfold bindM.
    pose proof (create_sample_data_data faults get_password_hash
                  (record_call (OpCount (py "categories")) w)) as H.
    destruct (create_sample_data faults get_password_hash
                (record_call (OpCount (py "categories")) w)) as [res w'].
    cbn [rows pending record_call] in H. rewrite Hp in H. cbn [app] in H.
    destruct H as [(-> & Hr & _) | (e & -> & Hr)].
    + left. cbn. split; [reflexivity | exact Hr].
    + right. exists e. split; [reflexivity | exact Hr].
Qed.

Lemma session_opened_data (w : World) :
  rows (session_opened w) = rows w
  /\ pending (session_opened w) = []
  /\ calls (session_opened w) = calls w ++ [OpCreateAll; OpSessionLocal]
  /\ logs (session_opened w)
     = logs w ++ [(INFO, py "Database tables created successfully")].
Proof. cbn. rewrite <- app_assoc. repeat split. Qed.

End BootstrapTheorems.


Example session_closed_after_failure :
  match init_database (second_commit_fails OSError) (fun _ => py "$2b$hash")
          (fun _ => py "disk full") empty_world with
  | (res, w) => res = Raise OSError /\ last (calls w) OpCreateAll = OpClose
  end.
Proof. vm_compute. split; reflexivity. Qed.

(** X13.  When [init_database] raises, the exception is one a call of this
    run raised; it is logged once as ["Error initializing database: ..."] at
    level ERROR before it is re-raised if it is an [Exception], and not
    logged if it is not (a [KeyboardInterrupt]); everything else the run
    logs is informational, and a run that returns logs no error. *)
Theorem bootstrap_errors_are_logged_and_reraised
    (faults : list DbOp -> DbOp -> option exn)
    (get_password_hash : pystr -> pystr) (exn_text : exn -> pystr) (w : World) :
  match init_database faults get_password_hash exn_text w with
  | (res, w') =>
      exists new infos,
        calls w' = calls w ++ new
        /\ match res with
           | Ok _ => logs w' = logs w ++ map (pair INFO) infos
           | Raise e =>
               (exists before op after,
                   new = before ++ op :: after
                   /\ faults (calls w ++ before) op = Some e)
               /\ logs w'
                  = logs w ++ map (pair INFO) infos
                      ++ (if is_Exception e
                          then [(ERROR,
                                 py "Error initializing database: " ++ exn_text e)]
                          else [])
           end
  end.
Proof.
  rewrite init_database_unfold.
  destruct (faults (calls w) OpCreateAll) as [e |] eqn:F1.
  { destruct (log_and_reraise_data exn_text e (record_call OpCreateAll w))
      as (Hres & _ & _ & Hcalls & Hlogs).
    destruct (log_and_reraise exn_text e (record_call OpCreateAll w)) as [res w'].
    cbn [fst snd] in *. subst res. exists [OpCreateAll], [].
    split; [exact Hcalls |]. split; [| exact Hlogs].
    exists [], OpCreateAll, []. now rewrite app_nil_r. }
  destruct (faults (calls w ++ [OpCreateAll]) OpSessionLocal) as [e |] eqn:F2.
  { match goal with
    | |- context [log_and_reraise exn_text e ?w0] =>
        destruct (log_and_reraise_data exn_text e w0) as (Hres & _ & _ & Hcalls & Hlogs);
        destruct (log_and_reraise exn_text e w0) as [res w']
    end.
    cbn [fst snd] in *. subst res.
    exists [OpCreateAll; OpSessionLocal], [py "Database tables created successfully"].
    split; [rewrite Hcalls; cbn; now rewrite <- app_assoc |].
    split; [exists [OpCreateAll], OpSessionLocal, []; now split |].
    rewrite Hlogs. cbn. now rewrite <- app_assoc. }
  pose proof (session_sound_seed_if_empty faults get_password_hash (session_opened w))
    as (middle & msgs & Hc & _ & Hl & Hprov).
  destruct (seed_if_empty faults get_password_hash (session_opened w)) as [outcome wb].
  cbn [fst snd] in Hc, Hl, Hprov.
  destruct (session_opened_data w) as (_ & _ & Hc0 & Hl0).
  rewrite Hc0 in Hc, Hprov. rewrite Hl0 in Hl.
  assert (Hcalls' : calls wb ++ [OpClose]
                    = calls w ++ OpCreateAll :: OpSessionLocal :: middle ++ [OpClose])
    by (rewrite Hc, <- !app_assoc; reflexivity).
  assert (Hlogs' : logs wb
                   = logs w ++ map (pair INFO)
                                (py "Database tables created successfully" :: msgs))
    by (rewrite Hl, <- app_assoc; reflexivity).
  destruct (faults (calls wb) OpClose) as [e |] eqn:F3.
  { destruct (log_and_reraise_data exn_text e (record_call OpClose wb))
      as (Hres & _ & _ & Hcalls & Hlogs).
    destruct (log_and_reraise exn_text e (record_call OpClose wb)) as [res w'].
    cbn [fst snd] in *. subst res.
    exists (OpCreateAll :: OpSessionLocal :: middle ++ [OpClose]),
           (py "Database tables created successfully" :: msgs).
    split; [rewrite Hcalls; exact Hcalls' |].
    split.
    - exists (OpCreateAll :: OpSessionLocal :: middle), OpClose, [].
      split; [reflexivity |].
      rewrite Hc in F3. rewrite <- F3. f_equal. now rewrite <- !app_assoc.
    - rewrite Hlogs. cbn [logs record_call]. rewrite Hlogs', <- app_assoc. reflexivity. }
  destruct outcome as [[] | e].
  - exists (OpCreateAll :: OpSessionLocal :: middle ++ [OpClose]),
           (py "Database tables created successfully" :: msgs).
    split; [exact Hcalls' | exact Hlogs'].
  - destruct (log_and_reraise_data exn_text e (close_session (record_call OpClose wb)))
      as (Hres & _ & _ & Hcalls & Hlogs).
    destruct (log_and_reraise exn_text e (close_session (record_call OpClose wb)))
      as [res w'].
    cbn [fst snd] in *. subst res.
    exists (OpCreateAll :: OpSessionLocal :: middle ++ [OpClose]),
           (py "Database tables created successfully" :: msgs).
    split; [rewrite Hcalls; exact Hcalls' |].
    split.
    + destruct (Hprov e eq_refl) as (before & op & after & -> & Hf).
      exists (OpCreateAll :: OpSessionLocal :: before), op, (after ++ [OpClose]).
      split; [cbn; now rewrite <- app_assoc |].
      rewrite <- Hf. f_equal. now rewrite <- !app_assoc.
    + rewrite Hlogs. cbn [logs close_session record_call].
      rewrite Hlogs', <- app_assoc. reflexivity.
Qed.

Lemma seed_if_empty_no_faults (get_password_hash : pystr -> pystr) (w : World) :
  fst (seed_if_empty no_faults get_password_hash w) = Ok tt.
Proof.
  pose proof (session_sound_seed_if_empty no_faults get_password_hash w) as H.
  unfold session_run in H. destruct H as (new & msgs & _ & _ & _ & Hprov).
  destruct (fst (seed_if_empty no_faults get_password_hash w)) as [[] | e];
    [reflexivity |].
  destruct (Hprov e eq_refl) as (before & op & after & _ & Hf). discriminate Hf.
Qed.

(** A run in which nothing raises. *)
Lemma init_database_no_faults (get_password_hash : pystr -> pystr)
    (exn_text : exn -> pystr) (w : World) :
  fst (init_database no_faults get_password_hash exn_text w) = Ok tt
  /\ rows (snd (init_database no_faults get_password_hash exn_text w))
     = (if count_rows (py "categories") (rows w) =? 0
        then rows w ++ sample_categories ++ sample_rest get_password_hash
        else rows w).
Proof.
  rewrite init_database_unfold. unfold no_faults at 1 2.
  pose proof (seed_if_empty_no_faults get_password_hash (session_opened w)) as Hok.
  pose proof (seed_if_empty_data no_faults get_password_hash (session_opened w)) as Hd.
  destruct (session_opened_data w) as (Hr0 & Hp0 & _ & _).
  specialize (Hd Hp0). rewrite Hr0 in Hd.
  destruct (seed_if_empty no_faults get_password_hash (session_opened w))
    as [outcome wb].
  cbn [fst] in Hok. subst outcome. unfold no_faults at 1. cbn [fst snd].
  split; [reflexivity |]. cbn [rows close_session record_call].
  destruct (count_rows (py "categories") (rows w) =? 0); [| exact Hd].
  destruct Hd as [(_ & Hd) | (e & He & _)]; [exact Hd | discriminate He].
Qed.

Lemma sample_categories_count : count_rows (py "categories") sample_categories = 4.
Proof. reflexivity. Qed.

(** X11.  When nothing raises, [init_database] returns, and it seeds only
    an empty catalogue: with no category committed it commits the 4
    categories, 7 products and 2 users, otherwise it commits nothing; so a
    second run never adds anything to what the first left. *)
Theorem bootstrap_is_idempotent
    (get_password_hash : pystr -> pystr) (exn_text : exn -> pystr) (w : World) :
  match init_database no_faults get_password_hash exn_text w with
  | (res1, w1) =>
      match init_database no_faults get_password_hash exn_text w1 with
      | (res2, w2) =>
          res1 = Ok tt /\ res2 = Ok tt
          /\ rows w1
             = (if count_rows (py "categories") (rows w) =? 0
                then rows w ++ sample_categories ++ sample_rest get_password_hash
                else rows w)
          /\ rows w2 = rows w1
      end
  end.
Proof.
  destruct (init_database_no_faults get_password_hash exn_text w) as [Hres1 Hrows1].
  destruct (init_database no_faults get_password_hash exn_text w) as [res1 w1].
  cbn [fst snd] in Hres1, Hrows1.
  destruct (init_database_no_faults get_password_hash exn_text w1) as [Hres2 Hrows2].
  destruct (init_database no_faults get_password_hash exn_text w1) as [res2 w2].
  cbn [fst snd] in Hres2, Hrows2.
  repeat (split; [assumption |]).
  rewrite Hrows2.
  assert (Hnz : (count_rows (py "categories") (rows w1) =? 0) = false).
  { apply Z.eqb_neq. rewrite Hrows1.
    destruct (Z.eqb_spec (count_rows (py "categories") (rows w)) 0) as [Hz | Hnz];
      [| exact Hnz].
    rewrite !count_rows_app, sample_categories_count.
    pose proof (count_rows_nonneg (py "categories") (rows w)).
    pose proof (count_rows_nonneg (py "categories") (sample_rest get_password_hash)).
    lia. }
  now rewrite Hnz.
Qed.

(** X12.  Seeding is not atomic and a partial seed is not repaired.  From
    a catalogue without categories, a run leaves committed either nothing
    new, or the four categories alone, or the whole sample; it leaves the
    whole sample whenever it returns.  After a run that left the categories
    alone, a later run in which nothing raises returns and adds no row: the
    products and users are never seeded. *)
Theorem partial_seed_is_not_repaired
    (faults : list DbOp -> DbOp -> option exn)
    (get_password_hash : pystr -> pystr) (exn_text : exn -> pystr) (w : World) :
  count_rows (py "categories") (rows w) = 0 ->
  match init_database faults get_password_hash exn_text w with
  | (res, w1) =>
      (rows w1 = rows w
       \/ rows w1 = rows w ++ sample_categories
       \/ rows w1 = rows w ++ sample_categories ++ sample_rest get_password_hash)
      /\ (res = Ok tt ->
          rows w1 = rows w ++ sample_categories ++ sample_rest get_password_hash)
      /\ (rows w1 = rows w ++ sample_categories ->
          forall get_password_hash' exn_text',
            match init_database no_faults get_password_hash' exn_text' w1 with
            | (res2, w2) => res2 = Ok tt /\ rows w2 = rows w1
            end)
  end.
Proof.
  intros Hempty.
  assert (Hrepair : forall w1,
            rows w1 = rows w ++ sample_categories ->
            forall get_password_hash' exn_text',
              match init_database no_faults get_password_hash' exn_text' w1 with
              | (res2, w2) => res2 = Ok tt /\ rows w2 = rows w1
              end).
  { intros w1 Hw1 h' t'.
    destruct (init_database_no_faults h' t' w1) as [Hres Hrows].
    destruct (init_database no_faults h' t' w1) as [res2 w2].
    cbn [fst snd] in Hres, Hrows. split; [exact Hres |].
    rewrite Hrows.
    assert (Hnz : (count_rows (py "categories") (rows w1) =? 0) = false).
    { apply Z.eqb_neq.
      rewrite Hw1, count_rows_app, sample_categories_count, Hempty. lia. }
    now rewrite Hnz. }
  rewrite init_database_unfold.
  assert (Hfail : forall e w0, rows w0 = rows w ->
            match log_and_reraise exn_text e w0 with
            | (res, w1) =>
                (rows w1 = rows w
                 \/ rows w1 = rows w ++ sample_categories
                 \/ rows w1 = rows w ++ sample_categories
                                ++ sample_rest get_password_hash)
                /\ (res = Ok tt ->
                    rows w1 = rows w ++ sample_categories
                                ++ sample_rest get_password_hash)
                /\ (rows w1 = rows w ++ sample_categories ->
                    forall get_password_hash' exn_text',
                      match init_database no_faults get_password_hash' exn_text' w1 with
                      | (res2, w2) => res2 = Ok tt /\ rows w2 = rows w1
                      end)
            end).
  { intros e w0 Hw0.
    destruct (log_and_reraise_data exn_text e w0) as (Hres & Hrows & _).
    destruct (log_and_reraise exn_text e w0) as [res w1].
    cbn [fst snd] in Hres, Hrows. subst res.
    split; [left; congruence |]. split; [discriminate | apply Hrepair]. }
  destruct (faults (calls w) OpCreateAll) as [e |]; [now apply Hfail |].
  destruct (faults (calls w ++ [OpCreateAll]) OpSessionLocal) as [e |];
    [now apply Hfail |].
  pose proof (seed_if_empty_data faults get_password_hash (session_opened w)) as Hd.
  destruct (session_opened_data w) as (Hr0 & Hp0 & _ & _).
  specialize (Hd Hp0). rewrite Hr0, Hempty in Hd. cbn [Z.eqb] in Hd.
  destruct (seed_if_empty faults get_password_hash (session_opened w)) as [outcome wb].
  assert (Hany : forall e w0, rows w0 = rows wb ->
            match log_and_reraise exn_text e w0 with
            | (res, w1) =>
                (rows w1 = rows w
                 \/ rows w1 = rows w ++ sample_categories
                 \/ rows w1 = rows w ++ sample_categories
                                ++ sample_rest get_password_hash)
                /\ (res = Ok tt ->
                    rows w1 = rows w ++ sample_categories
                                ++ sample_rest get_password_hash)
                /\ (rows w1 = rows w ++ sample_categories ->
                    forall get_password_hash' exn_text',
                      match init_database no_faults get_password_hash' exn_text' w1 with
                      | (res2, w2) => res2 = Ok tt /\ rows w2 = rows w1
                      end)
            end).
  { intros e w0 Hw0.
    destruct (log_and_reraise_data exn_text e w0) as (Hres & Hrows & _).
    destruct (log_and_reraise exn_text e w0) as [res w1].
    cbn [fst snd] in Hres, Hrows. subst res. rewrite Hw0 in Hrows.
    split; [| split; [discriminate | apply Hrepair]].
    destruct Hd as [(_ & Hd) | (e' & _ & [Hd | Hd])]; rewrite Hrows, Hd; tauto. }
  destruct (faults (calls wb) OpClose) as [e |]; [now apply Hany |].
  destruct outcome as [[] | e]; [| now apply Hany].
  destruct Hd as [(_ & Hd) | (e' & He' & _)]; [| discriminate He'].
  split; [right; right; exact Hd |]. split; [intros _; exact Hd |].
  apply (Hrepair (close_session (record_call OpClose wb))).
Qed.

Lemma partial_seed_is_not_repaired_witness :
  match init_database (second_commit_fails OSError) (fun _ => py "$2b$hash")
          (fun _ => py "disk full") empty_world with
  | (res, w1) =>
      (rows w1 = rows empty_world
       \/ rows w1 = rows empty_world ++ sample_categories
       \/ rows w1 = rows empty_world ++ sample_categories
                      ++ sample_rest (fun _ => py "$2b$hash"))
      /\ (res = Ok tt ->
          rows w1 = rows empty_world ++ sample_categories
                      ++ sample_rest (fun _ => py "$2b$hash"))
      /\ (rows w1 = rows empty_world ++ sample_categories ->
          forall get_password_hash' exn_text',
            match init_database no_faults get_password_hash' exn_text' w1 with
            | (res2, w2) => res2 = Ok tt /\ rows w2 = rows w1
            end)
  end.
Proof.
  apply (partial_seed_is_not_repaired (second_commit_fails OSError)
           (fun _ => py "$2b$hash") (fun _ => py "disk full") empty_world).
  reflexivity.
Defined.

(** ** [get_db_session] *)

Lemma get_db_session_keeps (faults : list DbOp -> DbOp -> option exn)
    (w0 : World) (cmd : GenCmd) (st : GenState) (w : World) :
  session_generator_at faults w0 st w ->
  session_generator_at faults w0
    (snd (fst (get_db_session faults cmd st w)))
    (snd (get_db_session faults cmd st w)).
Proof.
  intros H. destruct st; cbn [get_db_session].
  - cbn [session_generator_at] in H. destruct cmd; try (left; exact H).
    destruct (call_cases faults OpSessionLocal (fun _ => tt) open_session w)
      as [(e & Hf & ->) | (Hf & ->)]; cbn [fst snd]; rewrite H in Hf.
    + right. left. cbn. rewrite H, Hf. split; [reflexivity | discriminate].
    + cbn. rewrite H. now split.
  - destruct H as [Hc Hf]. unfold db_close.
    destruct (call_cases faults OpClose (fun _ => tt) close_session w)
      as [(e & _ & ->) | (_ & ->)]; cbn [fst snd];
      right; right; cbn; rewrite Hc, <- app_assoc; now split.
  - exact H.
Qed.

(** X14.  However the generator of [get_db_session] is driven (any
    sequence of [next], [throw] and [close], whatever raises): it opens at
    most one session; while it is suspended the session is open and not
    closed; once it has finished, either no session was handed out (it was
    never started, or [SessionLocal()] raised) and [db.close()] was not
    called, or the session was handed out and [db.close()] was called
    exactly once. *)
Theorem session_generator_closes_what_it_opened
    (faults : list DbOp -> DbOp -> option exn) (cmds : list GenCmd) (w : World) :
  match drive faults cmds GenCreated w with
  | (GenCreated, w') => calls w' = calls w /\ cmds = []
  | (GenSuspended, w') =>
      calls w' = calls w ++ [OpSessionLocal]
      /\ faults (calls w) OpSessionLocal = None
  | (GenFinished, w') =>
      calls w' = calls w
      \/ (calls w' = calls w ++ [OpSessionLocal]
          /\ faults (calls w) OpSessionLocal <> None)
      \/ (calls w' = calls w ++ [OpSessionLocal; OpClose]
          /\ faults (calls w) OpSessionLocal = None)
  end.
Proof.
  assert (Hinv : forall cmds st w1,
            session_generator_at faults w st w1 ->
            session_generator_at faults w
              (fst (drive faults cmds st w1)) (snd (drive faults cmds st w1))).
  { clear cmds. induction cmds as [| cmd cmds IH]; intros st w1 H; cbn [drive].
    - exact H.
    - pose proof (get_db_session_keeps faults w cmd st w1 H) as Hk.
      destruct (get_db_session faults cmd st w1) as [[r st'] w'].
      apply IH. exact Hk. }
  assert (Hleft : forall cmds st w1, st <> GenCreated ->
            fst (drive faults cmds st w1) <> GenCreated).
  { clear. induction cmds as [| cmd cmds IH]; intros st w1 H; cbn [drive]; [exact H |].
    destruct (get_db_session faults cmd st w1) as [[r st'] w'] eqn:E.
    apply IH. destruct st; [contradiction | |]; cbn [get_db_session] in E.
    - destruct (db_close faults w1) as [[[] | e] w2]; injection E as _ <- _; discriminate.
    - injection E as _ <- _. discriminate. }
  specialize (Hinv cmds GenCreated w eq_refl).
  destruct cmds as [| cmd cmds]; [cbn; split; reflexivity |].
  assert (Hne : fst (drive faults (cmd :: cmds) GenCreated w) <> GenCreated).
  { cbn [drive].
    destruct (get_db_session faults cmd GenCreated w) as [[r st'] w'] eqn:E.
    apply Hleft. cbn [get_db_session] in E. destruct cmd.
    - destruct (call faults OpSessionLocal (fun _ => tt) open_session w)
        as [[[] | e] w2]; injection E as _ <- _; discriminate.
    - injection E as _ <- _. discriminate.
    - injection E as _ <- _. discriminate. }
  destruct (drive faults (cmd :: cmds) GenCreated w) as [st' w'].
  cbn [fst snd] in Hinv, Hne. destruct st'; [contradiction | exact Hinv | exact Hinv].
Qed.

Example session_generator_runs :
  (* a request that goes well: next, then next again *)
  drive no_faults [GenNext; GenNext] GenCreated empty_world
  = (GenFinished,
     {| rows := []; pending := []; calls := [OpSessionLocal; OpClose]; logs := [] |})
  (* a request that fails: next, then the error is thrown in *)
  /\ drive no_faults [GenNext; GenThrow ValueError; GenClose] GenCreated empty_world
     = (GenFinished,
        {| rows := []; pending := []; calls := [OpSessionLocal; OpClose]; logs := [] |})
  (* a generator discarded before it started *)
  /\ drive no_faults [GenClose; GenNext] GenCreated empty_world
     = (GenFinished, empty_world)
  /\ fst (fst (get_db_session no_faults (GenThrow ValueError) GenSuspended empty_world))
     = GenRaised ValueError.
Proof. repeat split. Qed.
